(** * tracker.py: calibrated 2D motion capture, a shallow embedding

    The script keeps a module-level calibration dictionary, a cv2
    MultiTracker and two loop flags (initBox, fps).  Every loop iteration
    reads a frame, prints the calibrated position of every tracked box and
    the displacement between every two of them, and then serves one key:
    's' adds a region, 'c' calibrates, 'q' quits.

    Numbers are Python numbers: an [int] is a [Z], a [float] is a binary64
    primitive float.  Drawing calls (cv2.rectangle, putText, imshow) and the
    wall-clock part of the FPS counter leave no trace in the values the
    script prints and are left out. *)

From Stdlib Require Import ZArith Floats Ascii String List Bool Lia.
Import ListNotations.
Open Scope Z_scope.

(** ** Python numbers *)

Module PyNum.

Inductive num : Type :=
| Int (z : Z)
| Flt (f : float).

(** int -> float, rounded to nearest even as PyLong_AsDouble does.  Python
    raises OverflowError for an int of magnitude 2^1024 - 2^970 or more;
    here such an int goes to infinity.  Every int of the script is a pixel
    coordinate, a sum or a product of a few of them. *)
Definition Z2F (z : Z) : float :=
  SF2Prim (binary_normalize prec emax z 0 false).
Arguments Z2F : simpl never.

Definition to_float (n : num) : float :=
  match n with
  | Int z => Z2F z
  | Flt f => f
  end.

(** [a - b], [a * b], [a + b]: int with int stays int, anything else is
    computed on doubles. *)
Definition py_sub (a b : num) : num :=
  match a, b with
  | Int x, Int y => Int (x - y)
  | _, _ => Flt (to_float a - to_float b)
  end.

Definition py_mul (a b : num) : num :=
  match a, b with
  | Int x, Int y => Int (x * y)
  | _, _ => Flt (to_float a * to_float b)
  end.

Definition py_add (a b : num) : num :=
  match a, b with
  | Int x, Int y => Int (x + y)
  | _, _ => Flt (to_float a + to_float b)
  end.

(** The exceptions the script can die of. *)
Inductive exn : Type :=
| ValueError
| ZeroDivisionError
| OverflowError
| EOFError
| KeyError
| AttributeError
| IndexError.

(** Is the divisor zero?  Python tests the converted double; a nonzero int
    never converts to 0.0, so the test is made on the number itself. *)
Definition is_zero (n : num) : bool :=
  match n with
  | Int z => z =? 0
  | Flt f => (f =? 0)%float
  end.

(** [a / b] for a float [a]: float.__truediv__. *)
Definition float_truediv (a : float) (b : num) : exn + float :=
  if is_zero b then inl ZeroDivisionError
  else inr (a / to_float b)%float.

(** [int(v)]: the identity on an int, truncation toward zero on a float,
    ValueError on nan, OverflowError on an infinity. *)
Definition trunc_float (f : float) : exn + Z :=
  match Prim2SF f with
  | S754_zero _ => inr 0
  | S754_finite s m e =>
      let a := if 0 <=? e then Zpos m * 2 ^ e else Zpos m / 2 ^ (- e) in
      inr (if s then - a else a)
  | S754_infinity _ => inl OverflowError
  | S754_nan => inl ValueError
  end.

Definition py_int (v : num) : exn + Z :=
  match v with
  | Int z => inr z
  | Flt f => trunc_float f
  end.

End PyNum.
Export PyNum.

(** ** The calibration dictionary

    calibrationRef = {"refPoint": {"pixels": (0,0), "truth": (0,0)},
                      "pixelsToTruthRatio": (1,1)} *)

Record refPoint_t : Type := mkRefPoint {
  pixels : Z * Z;
  truth : num * num
}.

Record calibration : Type := mkCalibration {
  refPoint : refPoint_t;
  pixelsToTruthRatio : num * num
}.

Definition default_calibration : calibration :=
  {| refPoint := {| pixels := (0, 0); truth := (Int 0, Int 0) |};
     pixelsToTruthRatio := (Int 1, Int 1) |}.

(** calibrateXY(pt, ref).  The function reads the module-level dictionary,
    passed here as [calibrationRef]; its own parameter [ref] is not used by
    the body.  [pt] is a pair of ints: the only caller passes a box
    centre. *)
Definition calibrateXY {A : Type} (calibrationRef : calibration)
    (pt : Z * Z) (ref : A) : num * num :=
  let x := py_add
             (py_mul (py_sub (Int (fst pt))
                             (Int (fst (pixels (refPoint calibrationRef)))))
                     (fst (pixelsToTruthRatio calibrationRef)))
             (fst (truth (refPoint calibrationRef))) in
  let y := py_add
             (py_mul (py_sub (Int (snd pt))
                             (Int (snd (pixels (refPoint calibrationRef)))))
                     (snd (pixelsToTruthRatio calibrationRef)))
             (snd (truth (refPoint calibrationRef))) in
  (x, y).

(** ** A state and exception monad for the script

    A computation runs on the script's variables [S]; it either returns
    or raises, and in both cases leaves the variables as they are at that
    point. *)

Inductive result (S A : Type) : Type :=
| Ok (a : A) (s : S)
| Raise (e : exn) (s : S).
Arguments Ok {S A} a s.
Arguments Raise {S A} e s.

Definition M (S A : Type) : Type := S -> result S A.

Definition ret {S A : Type} (a : A) : M S A := fun s => Ok a s.

Definition bind {S A B : Type} (c : M S A) (k : A -> M S B) : M S B :=
  fun s =>
    match c s with
    | Ok a s' => k a s'
    | Raise e s' => Raise e s'
    end.

Definition raise {S A : Type} (e : exn) : M S A := fun s => Raise e s.

Definition get {S : Type} : M S S := fun s => Ok s s.

Definition modify {S : Type} (f : S -> S) : M S unit := fun s => Ok tt (f s).

Definition lift {S A : Type} (r : exn + A) : M S A :=
  match r with
  | inl e => raise e
  | inr a => ret a
  end.

Declare Scope monad_scope.
Delimit Scope monad_scope with monad.
Notation "x <- c ;; k" := (bind c (fun x => k))
  (at level 61, c at next level, right associativity) : monad_scope.
Notation "' p <- c ;; k" := (bind c (fun x => match x with p => k end))
  (at level 61, p pattern, c at next level, right associativity) : monad_scope.
Notation "c ;; k" := (bind c (fun _ => k))
  (at level 61, right associativity) : monad_scope.
Open Scope monad_scope.

(** ** What the script prints for a frame *)

Definition point : Type := (num * num)%type.

(** A rectangle as cv2 hands it over: the tuple (x, y, w, h). *)
Definition box : Type := (num * num * num * num)%type.

Inductive event : Type :=
| Blank                                   (* print("\n") *)
| Object (i : nat) (x y : num)            (* "Object %d, (%.4f, %.4f)" *)
| Distance (j i : nat) (dx dy : num).     (* "Distance %d to %d, (%.4f, %.4f)" *)

(** A line typed at a prompt, as float() takes it. *)
Inductive typed : Type :=
| Number (f : float)
| NotANumber (s : string).

(** The constructors in OPENCV_OBJECT_TRACKERS. *)
Inductive tracker_ctor : Type :=
| TrackerCSRT_create
| TrackerKCF_create
| TrackerBoosting_create
| TrackerMIL_create
| TrackerTLD_create
| TrackerMedianFlow_create
| TrackerMOSSE_create.

Definition OPENCV_OBJECT_TRACKERS : list (string * tracker_ctor) :=
  [ ("csrt", TrackerCSRT_create);
    ("kcf", TrackerKCF_create);
    ("boosting", TrackerBoosting_create);
    ("mil", TrackerMIL_create);
    ("tld", TrackerTLD_create);
    ("medianflow", TrackerMedianFlow_create);
    ("mosse", TrackerMOSSE_create) ]%string.

Fixpoint dict_get {V : Type} (d : list (string * V)) (k : string) : exn + V :=
  match d with
  | [] => inl KeyError
  | (k', v) :: d' => if String.eqb k k' then inr v else dict_get d' k
  end.

(** range(n) *)
Definition range (n : nat) : list nat := seq 0 n.

(** ord(c) *)
Definition ord (c : Ascii.ascii) : Z := Z.of_N (Ascii.N_of_ascii c).

Inductive control : Type := Continue | Break.

(** ** The session

    The frame type and the per-object tracker of cv2 are parameters.
    cv2.MultiTracker is a list of tracker objects: add appends one and
    seeds it with the frame and the box, update advances every one of them
    in insertion order and returns all the boxes with the conjunction of
    the success flags. *)

Section Session.

Variable frame : Type.
Variable tracker_obj : Type.
Variable tracker_init : tracker_ctor -> frame -> box -> tracker_obj.
Variable tracker_update : tracker_obj -> frame -> tracker_obj * (bool * box).
(** args["tracker"] *)
Variable args_tracker : string.

Definition MultiTracker_add (ts : list tracker_obj) (c : tracker_ctor)
    (f : frame) (b : box) : list tracker_obj :=
  ts ++ [tracker_init c f b].

Fixpoint MultiTracker_update (ts : list tracker_obj) (f : frame)
    : list tracker_obj * (bool * list box) :=
  match ts with
  | [] => ([], (true, []))
  | t :: ts' =>
      let '(t', (ok, b)) := tracker_update t f in
      let '(ts'', (oks, bs)) := MultiTracker_update ts' f in
      (t' :: ts'', (ok && oks, b :: bs))
  end.

(** The module-level variables, the operator's keyboard and the terminal.
    [fps] counts the frames since FPS().start(). *)
Record world : Type := mkWorld {
  calibrationRef : calibration;
  trackers : list tracker_obj;
  initBox : option box;
  fps : option nat;
  stdin : list typed;
  stdout : list event
}.

Definition set_calibrationRef (c : calibration) (w : world) : world :=
  mkWorld c (trackers w) (initBox w) (fps w) (stdin w) (stdout w).
Definition set_trackers (ts : list tracker_obj) (w : world) : world :=
  mkWorld (calibrationRef w) ts (initBox w) (fps w) (stdin w) (stdout w).
Definition set_initBox (b : option box) (w : world) : world :=
  mkWorld (calibrationRef w) (trackers w) b (fps w) (stdin w) (stdout w).
Definition set_fps (n : option nat) (w : world) : world :=
  mkWorld (calibrationRef w) (trackers w) (initBox w) n (stdin w) (stdout w).
Definition set_stdin (l : list typed) (w : world) : world :=
  mkWorld (calibrationRef w) (trackers w) (initBox w) (fps w) l (stdout w).
Definition set_stdout (l : list event) (w : world) : world :=
  mkWorld (calibrationRef w) (trackers w) (initBox w) (fps w) (stdin w) l.

Definition print (e : event) : M world unit :=
  modify (fun w => set_stdout (stdout w ++ [e]) w).

(** l[i] *)
Definition index {A : Type} (l : list A) (i : nat) : M world A :=
  match nth_error l i with
  | Some a => ret a
  | None => raise IndexError
  end.

(** (x, y, w, h) = [int(v) for v in box] *)
Definition ints_of (b : box) : M world (Z * Z * Z * Z) :=
  let '(bx, by_, bw, bh) := b in
  x <- lift (py_int bx) ;;
  y <- lift (py_int by_) ;;
  w <- lift (py_int bw) ;;
  h <- lift (py_int bh) ;;
  ret (x, y, w, h).

(** float(input(prompt)) *)
Definition input_float : M world float :=
  w <- get ;;
  match stdin w with
  | [] => raise EOFError
  | l :: rest =>
      modify (set_stdin rest) ;;
      match l with
      | Number f => ret f
      | NotANumber _ => raise ValueError
      end
  end.

(** fps.update() *)
Definition fps_update : M world unit :=
  w <- get ;;
  match fps w with
  | None => raise AttributeError
  | Some n => modify (set_fps (Some (S n)))
  end.

(** Lines 95-97: for j in range(len(realPoints)-1). *)
Fixpoint distance_loop (i : nat) (realXY : point) (realPoints : list point)
    (js : list nat) : M world unit :=
  match js with
  | [] => ret tt
  | j :: js' =>
      pj <- index realPoints j ;;
      print (Distance j i (py_sub (fst realXY) (fst pj))
                          (py_sub (snd realXY) (snd pj))) ;;
      distance_loop i realXY realPoints js'
  end.

(** Lines 83-97: for i in range(len(boxes)).  [w // 2] is floor division,
    which is [Z.div]. *)
Fixpoint box_loop (boxes : list box) (idx : list nat) (realPoints : list point)
    : M world (list point) :=
  match idx with
  | [] => ret realPoints
  | i :: idx' =>
      b <- index boxes i ;;
      '(x, y, w, h) <- ints_of b ;;
      let boxCenter := (x + w / 2, y + h / 2) in
      g <- get ;;
      let realXY := calibrateXY (calibrationRef g) boxCenter (calibrationRef g) in
      let realPoints := realPoints ++ [realXY] in
      print (Object i (fst realXY) (snd realXY)) ;;
      distance_loop i realXY realPoints
        (range (length realPoints - 1)) ;;
      box_loop boxes idx' realPoints
  end.

(** Lines 75-113: the body of [if initBox is not None]. *)
Definition track_frame (f : frame) : M world unit :=
  g <- get ;;
  let '(ts, (success, boxes)) := MultiTracker_update (trackers g) f in
  modify (set_trackers ts) ;;
  print Blank ;;
  _ <- box_loop boxes (range (length boxes)) [] ;;
  fps_update.

(** Lines 120-127: key 's'. *)
Definition add_region (f : frame) (roi : box) : M world unit :=
  modify (set_initBox (Some roi)) ;;
  tracker <- lift (dict_get OPENCV_OBJECT_TRACKERS args_tracker) ;;
  modify (fun w => set_trackers (MultiTracker_add (trackers w) tracker f roi) w) ;;
  modify (set_fps (Some O)).

(** Lines 130-175: key 'c'. *)
Definition calibrate (calBox : box) : M world unit :=
  '(x, y, w, h) <- ints_of calBox ;;
  x_calib0 <- input_float ;;
  y_calib0 <- input_float ;;
  modify (fun g => set_calibrationRef
            (mkCalibration (mkRefPoint (x, y) (truth (refPoint (calibrationRef g))))
                           (pixelsToTruthRatio (calibrationRef g))) g) ;;
  modify (fun g => set_calibrationRef
            (mkCalibration (mkRefPoint (pixels (refPoint (calibrationRef g)))
                                       (Flt x_calib0, Flt y_calib0))
                           (pixelsToTruthRatio (calibrationRef g))) g) ;;
  x_calib1 <- input_float ;;
  y_calib1 <- input_float ;;
  rx <- lift (float_truediv (x_calib1 - x_calib0) (Int w)) ;;
  ry <- lift (float_truediv (y_calib1 - y_calib0) (Int h)) ;;
  modify (fun g => set_calibrationRef
            (mkCalibration (refPoint (calibrationRef g)) (Flt rx, Flt ry)) g) ;;
  modify (set_fps (Some O)).

(** What one pass of the loop gets from outside: the frame (None at the
    end of the stream), the key code and the rectangle the operator drags
    when selectROI is called. *)
Record tick : Type := mkTick {
  vs_read : option frame;
  waitKey : Z;
  selectROI : box
}.

(** Lines 75-113: [if initBox is not None]. *)
Definition frame_part (f : frame) : M world unit :=
  g <- get ;;
  match initBox g with
  | Some _ => track_frame f
  | None => ret tt
  end.

(** Lines 117-179: the key read after the frame is shown. *)
Definition serve_key (f : frame) (t : tick) : M world control :=
  let key := Z.land (waitKey t) 255 in
  if key =? ord "s"%char then add_region f (selectROI t) ;; ret Continue
  else if key =? ord "c"%char then calibrate (selectROI t) ;; ret Continue
  else if key =? ord "q"%char then ret Break
  else ret Continue.

(** One pass of [while True]. *)
Definition iteration (t : tick) : M world control :=
  match vs_read t with
  | None => ret Break
  | Some f => frame_part f ;; serve_key f t
  end.

(** The loop over the passes the environment offers. *)
Fixpoint video_loop (ticks : list tick) : M world unit :=
  match ticks with
  | [] => ret tt
  | t :: ticks' =>
      c <- iteration t ;;
      match c with
      | Break => ret tt
      | Continue => video_loop ticks'
      end
  end.

(** The variables as they are before the loop. *)
Definition initial_world (keyboard : list typed) : world :=
  mkWorld default_calibration [] None None keyboard [].

End Session.

Arguments calibrationRef {tracker_obj} _.
Arguments trackers {tracker_obj} _.
Arguments initBox {tracker_obj} _.
Arguments fps {tracker_obj} _.
Arguments stdin {tracker_obj} _.
Arguments stdout {tracker_obj} _.
Arguments mkWorld {tracker_obj} _ _ _ _ _ _.
Arguments initial_world {tracker_obj} _.
Arguments print {tracker_obj} _ _.
Arguments index {tracker_obj A} _ _ _.
Arguments ints_of {tracker_obj} _ _.
Arguments input_float {tracker_obj} _.
Arguments fps_update {tracker_obj} _.
Arguments distance_loop {tracker_obj} _ _ _ _ _.
Arguments box_loop {tracker_obj} _ _ _ _.
Arguments calibrate {tracker_obj} _ _.
Arguments vs_read {frame} _.
Arguments waitKey {frame} _.
Arguments selectROI {frame} _.
Arguments mkTick {frame} _ _ _.
Arguments MultiTracker_add {frame tracker_obj} _ _ _ _ _.
Arguments MultiTracker_update {frame tracker_obj} _ _ _.
Arguments track_frame {frame tracker_obj} _ _ _.
Arguments add_region {frame tracker_obj} _ _ _ _ _.
Arguments frame_part {frame tracker_obj} _ _ _.
Arguments serve_key {frame tracker_obj} _ _ _ _ _.
Arguments iteration {frame tracker_obj} _ _ _ _ _.
Arguments video_loop {frame tracker_obj} _ _ _ _ _.

(** ** Reading a frame report off the terminal *)

(** What was printed between two states of the terminal. *)
Definition printed {T : Type} (before after : world T) : list event :=
  skipn (length (stdout before)) (stdout after).

(** The "Object" lines: (id, x, y). *)
Fixpoint positions_of (out : list event) : list (nat * num * num) :=
  match out with
  | [] => []
  | Object i x y :: out' => (i, x, y) :: positions_of out'
  | _ :: out' => positions_of out'
  end.

(** The "Distance" lines: the pair as printed, and the delta. *)
Fixpoint distances_of (out : list event) : list ((nat * nat) * (num * num)) :=
  match out with
  | [] => []
  | Distance j i dx dy :: out' => ((j, i), (dx, dy)) :: distances_of out'
  | _ :: out' => distances_of out'
  end.

Definition Tracking {T : Type} (w : world T) : Prop := initBox w <> None.

(** A box whose four numbers [int] accepts. *)
Definition int_box (b : box) (q : Z * Z * Z * Z) : Prop :=
  let '(bx, by_, bw, bh) := b in
  let '(x, y, w, h) := q in
  py_int bx = inr x /\ py_int by_ = inr y /\
  py_int bw = inr w /\ py_int bh = inr h.

(** The centre the loop takes of a box of ints. *)
Definition center (q : Z * Z * Z * Z) : Z * Z :=
  let '(x, y, w, h) := q in (x + w / 2, y + h / 2).

(** ** The specification's wording, for comparison *)



(** The pairs (i, j), i < j, by ascending i and then ascending j. *)
Definition spec_pairs (n : nat) : list (nat * nat) :=
  flat_map (fun i => map (fun j => (i, j)) (seq (S i) (n - S i))) (seq 0 n).

(** The pairs in the order the loop prints them: by ascending larger
    index and then ascending smaller index. *)
Definition printed_pairs (n : nat) : list (nat * nat) :=
  flat_map (fun i => map (fun j => (j, i)) (seq 0 i)) (seq 0 n).

(** The delta the specification gives the pair (i, j): position i minus
    position j. *)
Definition spec_delta (pts : list point) (i j : nat) : option (num * num) :=
  match nth_error pts i, nth_error pts j with
  | Some pi, Some pj =>
      Some (py_sub (fst pi) (fst pj), py_sub (snd pi) (snd pj))
  | _, _ => None
  end.

(** ** A concrete session

    Frames carry nothing; a tracker holds its box still and reports it as
    doubles, the way cv2 returns a Rect2d. *)

Module Demo.

Definition frame : Type := unit.
Definition tracker_obj : Type := box.

Definition as_double (b : box) : box :=
  let '(x, y, w, h) := b in
  (Flt (to_float x), Flt (to_float y), Flt (to_float w), Flt (to_float h)).

Definition tracker_init (c : tracker_ctor) (f : frame) (b : box) : tracker_obj := b.
Definition tracker_update (t : tracker_obj) (f : frame)
    : tracker_obj * (bool * box) := (t, (true, as_double t)).

Definition rect (x y w h : Z) : box := (Int x, Int y, Int w, Int h).

Definition key (c : ascii) : Z := ord c.
Definition no_key : Z := -1.

Definition tick_of (k : Z) (roi : box) : tick frame := mkTick (Some tt) k roi.

Definition step := iteration tracker_init tracker_update "medianflow".
Definition run := video_loop tracker_init tracker_update "medianflow".

(** Two regions, added on the first and on the second frame. *)
Definition two_tracks : list (tick frame) :=
  [ tick_of (key "s") (rect 10 10 20 20);
    tick_of (key "s") (rect 50 50 20 20) ].

(** Four regions. *)
Definition four_tracks : list (tick frame) :=
  [ tick_of (key "s") (rect 10 10 20 20);
    tick_of (key "s") (rect 50 50 20 20);
    tick_of (key "s") (rect 90 10 20 20);
    tick_of (key "s") (rect 10 90 20 20) ].

(** The world after the ticks [ts], when the script is still running. *)
Definition after (ts : list (tick frame)) (keyboard : list typed)
    : option (world tracker_obj) :=
  match run ts (initial_world keyboard) with
  | Ok _ w => Some w
  | Raise _ _ => None
  end.

(** The report of the frame that follows the ticks [ts]. *)
Definition next_report (ts : list (tick frame)) : list event :=
  match after ts [] with
  | Some w =>
      match step (tick_of no_key (rect 0 0 0 0)) w with
      | Ok _ w' => printed w w'
      | Raise _ _ => []
      end
  | None => []
  end.

(** The variables before the loop, with nothing typed. *)
Definition world0 : world tracker_obj := initial_world [].

(** The boxes of two and of four trackers, and the ints they hold. *)
Definition boxes2 : list box :=
  [as_double (rect 10 10 20 20); as_double (rect 50 50 20 20)].
Definition ints2 : list (Z * Z * Z * Z) :=
  [(10, 10, 20, 20); (50, 50, 20, 20)].

Definition serve := serve_key tracker_init "medianflow".

(** A calibration rectangle at (5,5), 100 by 50 pixels. *)
Definition cal_tick : tick frame := tick_of (key "c") (rect 5 5 100 50).

End Demo.

(** ** Closed forms of what the loops print *)

(** Appending lines to the terminal. *)
Definition emit {T : Type} (l : list event) (w : world T) : world T :=
  mkWorld (calibrationRef w) (trackers w) (initBox w) (fps w) (stdin w)
          (stdout w ++ l).

(** The "Distance" lines of object [i] at [realXY], the earlier objects
    being at [prev]. *)
Definition distance_events (i : nat) (realXY : point) (prev : list point)
    : list event :=
  map (fun j => Distance j i
                  (py_sub (fst realXY) (fst (nth j prev realXY)))
                  (py_sub (snd realXY) (snd (nth j prev realXY))))
      (seq 0 (length prev)).

(** The lines for the objects at [pts], numbered from [i], the earlier
    objects being at [prev]. *)
Fixpoint report_events (i : nat) (prev pts : list point) : list event :=
  match pts with
  | [] => []
  | p :: pts' =>
      Object i (fst p) (snd p) :: distance_events i p prev
        ++ report_events (S i) (prev ++ [p]) pts'
  end.

(** The calibrated centre of a box of ints. *)
Definition real_point (c : calibration) (q : Z * Z * Z * Z) : point :=
  calibrateXY c (center q) c.

(** ** State relations for the session *)

(** The variables a computation ends with, returned or raised. *)
Definition outcome_world {S A : Type} (r : result S A) : S :=
  match r with
  | Ok _ s => s
  | Raise _ s => s
  end.

(** Every run of [c] relates the variables it starts with to those it
    ends with. *)
Definition keeps {S A : Type} (R : S -> S -> Prop) (c : M S A) : Prop :=
  forall s, R s (outcome_world (c s)).

(** initBox is set exactly when a tracker has been added, and the FPS
    counter is started by then. *)
Definition session_inv {T : Type} (w : world T) : Prop :=
  (initBox w = None <-> trackers w = []) /\ (initBox w <> None -> fps w <> None).


(** Nothing is printed, no tracker is touched, and a started FPS counter
    stays started. *)
Definition steady {T : Type} (w w' : world T) : Prop :=
  stdout w' = stdout w /\ trackers w' = trackers w /\ initBox w' = initBox w
  /\ (fps w <> None -> fps w' <> None).

(** initBox and the number of trackers are as they were, and a started
    FPS counter stays started. *)
Definition tracked {T : Type} (w w' : world T) : Prop :=
  initBox w' = initBox w
  /\ length (trackers w') = length (trackers w)
  /\ (fps w <> None -> fps w' <> None).

(** ** Predicates on doubles, boxes and outcomes *)

(** A double that is neither an infinity nor a nan. *)
Definition float_is_finite (f : float) : bool :=
  match Prim2SF f with
  | S754_zero _ | S754_finite _ _ _ => true
  | _ => false
  end.

Definition float_is_nan (f : float) : bool :=
  match Prim2SF f with
  | S754_nan => true
  | _ => false
  end.

(** The exception [int(v) for v in box] stops at, if any: the list
    comprehension converts x, y, w, h in this order. *)
Definition first_int_error (b : box) : option exn :=
  let '(bx, by_, bw, bh) := b in
  match py_int bx, py_int by_, py_int bw, py_int bh with
  | inl e, _, _, _ => Some e
  | inr _, inl e, _, _ => Some e
  | inr _, inr _, inl e, _ => Some e
  | inr _, inr _, inr _, inl e => Some e
  | inr _, inr _, inr _, inr _ => None
  end.

(** An exception that would show a defect of the script itself: a method
    called on None or a list indexed out of range. *)
Definition internal_error (e : exn) : Prop :=
  e = AttributeError \/ e = IndexError.

(** Every exception [c] raises satisfies [P]. *)
Definition raises_only {S A : Type} (P : exn -> Prop) (c : M S A) : Prop :=
  forall s, match c s with
            | Ok _ _ => True
            | Raise e _ => P e
            end.

(** The calibration and the keyboard are as they were. *)
Definition untouched {T : Type} (w w' : world T) : Prop :=
  calibrationRef w' = calibrationRef w /\ stdin w' = stdin w.

(** ** Calibration transform: C2, C8, C10 *)



(** C8: the session starts with refPixel = (0,0), refTruth = (0,0) and
    scale = (1,1), and under that calibration calibrateXY returns the pixel
    point it is given. *)
Theorem default_calibration_identity :
  (forall (T : Type) (keyboard : list typed),
      calibrationRef (@initial_world T keyboard) = default_calibration)
  /\ forall (A : Type) (p : Z * Z) (ref : A),
      calibrateXY default_calibration p ref = (Int (fst p), Int (snd p)).
Proof.
  split; [reflexivity|].
  intros A [px py] ref. unfold calibrateXY, default_calibration; cbn.
  f_equal; f_equal; lia.
Qed.

(** C10: the result of calibrateXY does not depend on its second argument:
    whatever is passed as [ref], of whatever type, the result is the one
    fixed by [pt] and the module-level dictionary. *)
Theorem calibrateXY_ignores_ref :
  forall (A B : Type) (c : calibration) (pt : Z * Z) (r1 : A) (r2 : B),
    calibrateXY c pt r1 = calibrateXY c pt r2.
Proof. reflexivity. Qed.

(** ** Running the loops *)

Section LoopLemmas.

Context {T : Type}.
Implicit Types (w : world T) (prev pts : list point) (l : list event).

Lemma bind_ok {A B : Type} (c : M (world T) A) (k : A -> M (world T) B) w a w' :
  c w = Ok a w' -> bind c k w = k a w'.
Proof. unfold bind; intros ->; reflexivity. Qed.

Lemma bind_raise {A B : Type} (c : M (world T) A) (k : A -> M (world T) B) w e w' :
  c w = Raise e w' -> bind c k w = Raise e w'.
Proof. unfold bind; intros ->; reflexivity. Qed.

Lemma emit_nil w : emit [] w = w.
Proof. destruct w; unfold emit; cbn; rewrite app_nil_r; reflexivity. Qed.

Lemma emit_emit l1 l2 w : emit l2 (emit l1 w) = emit (l1 ++ l2) w.
Proof. unfold emit; cbn; rewrite app_assoc; reflexivity. Qed.

Lemma print_emit e w : print e w = Ok tt (emit [e] w).
Proof. reflexivity. Qed.

Lemma printed_emit l w : printed w (emit l w) = l.
Proof.
  unfold printed, emit; cbn.
  rewrite skipn_app, skipn_all, Nat.sub_diag; reflexivity.
Qed.

Lemma ints_of_ok (b : box) (q : Z * Z * Z * Z) w :
  int_box b q -> ints_of b w = Ok q w.
Proof.
  destruct b as [[[bx by_] bw] bh], q as [[[x y] wd] h].
  intros (Hx & Hy & Hw & Hh).
  unfold ints_of, bind; rewrite Hx, Hy, Hw, Hh; reflexivity.
Qed.

Lemma distance_loop_emit i (realXY : point) prev js w :
  (forall j, In j js -> (j < length prev)%nat) ->
  distance_loop i realXY (prev ++ [realXY]) js w
  = Ok tt (emit (map (fun j => Distance j i
                        (py_sub (fst realXY) (fst (nth j prev realXY)))
                        (py_sub (snd realXY) (snd (nth j prev realXY)))) js) w).
Proof.
  revert w; induction js as [|j js IH]; intros w Hjs; cbn [distance_loop map].
  - rewrite emit_nil; reflexivity.
  - assert (Hj : (j < length prev)%nat) by (apply Hjs; left; reflexivity).
    unfold index.
    rewrite nth_error_app1, (nth_error_nth' prev realXY) by exact Hj.
    unfold bind, ret at 1. rewrite print_emit, IH, emit_emit.
    + reflexivity.
    + intros k Hk; apply Hjs; right; exact Hk.
Qed.

Lemma box_loop_emit (c : calibration) (rest : list box) :
  forall (pre : list box) (qs : list (Z * Z * Z * Z)) prev w,
    Forall2 int_box rest qs ->
    calibrationRef w = c ->
    box_loop (pre ++ rest) (seq (length pre) (length rest)) prev w
    = Ok (prev ++ map (real_point c) qs)
         (emit (report_events (length pre) prev (map (real_point c) qs)) w).
Proof.
  induction rest as [|b rest IH]; intros pre qs prev w Hqs Hc.
  - inversion Hqs; subst; cbn. rewrite app_nil_r, emit_nil; reflexivity.
  - inversion Hqs as [|b' q rest' qs' Hq Hrest]; subst.
    cbn [length seq box_loop map report_events].
    unfold index.
    rewrite nth_error_app2, Nat.sub_diag by lia. cbn [nth_error].
    unfold bind at 1, ret at 1.
    rewrite (bind_ok _ _ _ _ _ (ints_of_ok b q w Hq)).
    destruct q as [[[x y] wd] h].
    unfold bind at 1, get at 1.
    unfold bind at 1. rewrite print_emit.
    fold (center (x, y, wd, h)).
    fold (real_point (calibrationRef w) (x, y, wd, h)).
    set (p := real_point (calibrationRef w) (x, y, wd, h)).
    unfold bind at 1.
    rewrite length_app; cbn [length]. rewrite Nat.add_sub.
    unfold range. rewrite distance_loop_emit
      by (intros j Hj; apply in_seq in Hj; lia).
    specialize (IH (pre ++ [b]) qs' (prev ++ [p]) (emit
      (map (fun j => Distance j (length pre)
              (py_sub (fst p) (fst (nth j prev p)))
              (py_sub (snd p) (snd (nth j prev p)))) (seq 0 (length prev)))
      (emit [Object (length pre) (fst p) (snd p)] w)) Hrest eq_refl).
    rewrite length_app in IH; cbn [length] in IH.
    rewrite Nat.add_1_r, <- app_assoc in IH. cbn [app] in IH.
    etransitivity; [exact IH|].
    rewrite !emit_emit, <- app_assoc. reflexivity.
Qed.

Lemma box_loop_report (boxes : list box) (qs : list (Z * Z * Z * Z)) w :
  Forall2 int_box boxes qs ->
  box_loop boxes (range (length boxes)) [] w
  = Ok (map (real_point (calibrationRef w)) qs)
       (emit (report_events 0 [] (map (real_point (calibrationRef w)) qs)) w).
Proof.
  intros Hqs.
  exact (box_loop_emit (calibrationRef w) boxes [] qs [] w Hqs eq_refl).
Qed.

End LoopLemmas.

(** ** Reading the closed form *)

Lemma positions_of_app (l1 l2 : list event) :
  positions_of (l1 ++ l2) = positions_of l1 ++ positions_of l2.
Proof.
  induction l1 as [|e l1 IH]; [reflexivity|].
  destruct e; cbn; rewrite IH; reflexivity.
Qed.

Lemma distances_of_app (l1 l2 : list event) :
  distances_of (l1 ++ l2) = distances_of l1 ++ distances_of l2.
Proof.
  induction l1 as [|e l1 IH]; [reflexivity|].
  destruct e; cbn; rewrite IH; reflexivity.
Qed.

Lemma positions_distance_events i (p : point) (prev : list point) :
  positions_of (distance_events i p prev) = [].
Proof.
  unfold distance_events.
  induction (seq 0 (length prev)) as [|j js IH]; [reflexivity|exact IH].
Qed.

Lemma distances_distance_events i (p : point) (prev : list point) :
  distances_of (distance_events i p prev)
  = map (fun j => ((j, i), (py_sub (fst p) (fst (nth j prev p)),
                            py_sub (snd p) (snd (nth j prev p)))))
        (seq 0 (length prev)).
Proof.
  unfold distance_events.
  induction (seq 0 (length prev)) as [|j js IH]; [reflexivity|].
  cbn; rewrite IH; reflexivity.
Qed.

Lemma positions_report (pts : list point) :
  forall i prev,
    positions_of (report_events i prev pts)
    = map (fun kp => (fst kp, fst (snd kp), snd (snd kp)))
          (combine (seq i (length pts)) pts).
Proof.
  induction pts as [|p pts IH]; intros i prev; [reflexivity|].
  cbn [report_events positions_of length seq combine map].
  rewrite positions_of_app, positions_distance_events, IH. reflexivity.
Qed.

Lemma labels_report (pts : list point) :
  forall prev,
    map fst (distances_of (report_events (length prev) prev pts))
    = flat_map (fun k => map (fun j => (j, k)) (seq 0 k))
               (seq (length prev) (length pts)).
Proof.
  induction pts as [|p pts IH]; intros prev; [reflexivity|].
  cbn [report_events distances_of length seq flat_map].
  rewrite distances_of_app, map_app, distances_distance_events, map_map.
  cbn [fst]. f_equal.
  specialize (IH (prev ++ [p])).
  rewrite length_app, Nat.add_1_r in IH. exact IH.
Qed.

Lemma spec_delta_app_last (prev pts : list point) (p : point) b a :
  spec_delta ((prev ++ [p]) ++ pts) b a = spec_delta (prev ++ p :: pts) b a.
Proof. rewrite <- app_assoc; reflexivity. Qed.

Lemma distances_report_in (pts : list point) :
  forall prev a b d,
    In ((a, b), d) (distances_of (report_events (length prev) prev pts))
    <-> (a < b)%nat /\ (length prev <= b)%nat
        /\ spec_delta (prev ++ pts) b a = Some d.
Proof.
  induction pts as [|p pts IH]; intros prev a b d.
  - cbn [report_events distances_of In]. rewrite app_nil_r.
    split; [tauto|]. intros (_ & Hb & Hd).
    unfold spec_delta in Hd.
    apply nth_error_None in Hb. rewrite Hb in Hd. discriminate.
  - cbn [report_events distances_of].
    rewrite distances_of_app, in_app_iff, distances_distance_events.
    specialize (IH (prev ++ [p]) a b d).
    rewrite length_app, Nat.add_1_r in IH.
    rewrite IH, spec_delta_app_last, in_map_iff.
    split.
    + intros [(j & Hj & Hin) | (Hab & Hb & Hd)].
      * apply in_seq in Hin. inversion Hj; subst.
        split; [lia|]. split; [lia|].
        unfold spec_delta.
        rewrite nth_error_app2, Nat.sub_diag by lia. cbn [nth_error].
        rewrite nth_error_app1, (nth_error_nth' prev p) by lia.
        reflexivity.
      * split; [exact Hab|]. split; [lia|exact Hd].
    + intros (Hab & Hb & Hd).
      destruct (Nat.eq_dec b (length prev)) as [->|Hne].
      * left. exists a. split; [|apply in_seq; lia].
        unfold spec_delta in Hd.
        rewrite nth_error_app2, Nat.sub_diag in Hd by lia. cbn [nth_error] in Hd.
        rewrite nth_error_app1, (nth_error_nth' prev p) in Hd by lia.
        inversion Hd; reflexivity.
      * right. split; [exact Hab|]. split; [lia|exact Hd].
Qed.

Lemma printed_pairs_S n :
  printed_pairs (S n) = printed_pairs n ++ map (fun j => (j, n)) (seq 0 n).
Proof.
  unfold printed_pairs. rewrite seq_S, flat_map_app. cbn [flat_map].
  rewrite app_nil_r. reflexivity.
Qed.

Lemma printed_pairs_in n a b :
  In (a, b) (printed_pairs n) <-> (a < b < n)%nat.
Proof.
  unfold printed_pairs. rewrite in_flat_map. split.
  - intros (k & Hk & Hin). apply in_seq in Hk.
    apply in_map_iff in Hin as (j & Hj & Hin). apply in_seq in Hin.
    inversion Hj; subst. lia.
  - intros [Hab Hbn]. exists b. split; [apply in_seq; lia|].
    apply in_map_iff. exists a. split; [reflexivity|apply in_seq; lia].
Qed.

Lemma pair_with_NoDup (n : nat) (l : list nat) :
  NoDup l -> NoDup (map (fun j => (j, n)) l).
Proof.
  induction 1 as [|j l Hj Hl IH]; cbn; constructor; [|exact IH].
  rewrite in_map_iff. intros (k & Hk & Hin). inversion Hk; subst. tauto.
Qed.

Lemma printed_pairs_NoDup n : NoDup (printed_pairs n).
Proof.
  induction n as [|n IH]; [constructor|].
  rewrite printed_pairs_S. apply NoDup_app.
  - exact IH.
  - apply pair_with_NoDup, seq_NoDup.
  - intros [a b] Hin Hin'. apply printed_pairs_in in Hin.
    apply in_map_iff in Hin' as (j & Hj & _). inversion Hj; subst. lia.
Qed.


(** ** The frame report: C1, C6, C7 *)

(** C1, as the loop has it: in every frame report the entry printed for
    the pair (j, i), j < i, carries position i minus position j on each
    axis, the later object minus the earlier one.  With identity
    calibration and tracks centred at (20,20) and (60,60) the pair (0,1)
    carries (40,40). *)
Theorem distance_is_later_minus_earlier :
  (forall (T : Type) (w : world T) (boxes : list box)
          (qs : list (Z * Z * Z * Z)),
      Forall2 int_box boxes qs ->
      exists w',
        box_loop boxes (range (length boxes)) [] w
          = Ok (map (real_point (calibrationRef w)) qs) w'
        /\ forall j i d,
            In ((j, i), d) (distances_of (printed w w'))
            <-> (j < i)%nat
                /\ spec_delta (map (real_point (calibrationRef w)) qs) i j
                   = Some d)
  /\ distances_of (Demo.next_report Demo.two_tracks)
     = [((0%nat, 1%nat), (Int 40, Int 40))].
Proof.
  split; [|vm_compute; reflexivity].
  intros T w boxes qs Hqs. eexists. split; [apply box_loop_report, Hqs|].
  intros j i d. rewrite printed_emit.
  rewrite (distances_report_in _ [] j i d). cbn [length app].
  split; [intros (H1 & _ & H2); tauto | intros (H1 & H2)].
  split; [exact H1|]. split; [lia|exact H2].
Qed.

Lemma distance_is_later_minus_earlier_witness :
  exists w',
    box_loop Demo.boxes2 (range (length Demo.boxes2)) [] Demo.world0
      = Ok (map (real_point (calibrationRef Demo.world0)) Demo.ints2) w'
    /\ forall j i d,
        In ((j, i), d) (distances_of (printed Demo.world0 w'))
        <-> (j < i)%nat
            /\ spec_delta (map (real_point (calibrationRef Demo.world0))
                               Demo.ints2) i j
               = Some d.
Proof.
  apply (proj1 distance_is_later_minus_earlier Demo.tracker_obj Demo.world0
           Demo.boxes2 Demo.ints2).
  repeat constructor.
Defined.

(** C1 as the specification words it fails on the two-track scenario: the
    pair (0,1) would carry position 0 minus position 1, (-40,-40), and the
    report carries (40,40). *)
Lemma distance_sign_counterexample :
  positions_of (Demo.next_report Demo.two_tracks)
    = [(0%nat, Int 20, Int 20); (1%nat, Int 60, Int 60)]
  /\ spec_delta [(Int 20, Int 20); (Int 60, Int 60)] 0 1
     = Some (Int (-40), Int (-40))
  /\ ~ In ((0%nat, 1%nat), (Int (-40), Int (-40)))
          (distances_of (Demo.next_report Demo.two_tracks))
  /\ In ((0%nat, 1%nat), (Int 40, Int 40))
        (distances_of (Demo.next_report Demo.two_tracks)).
Proof.
  split; [vm_compute; reflexivity|].
  split; [reflexivity|].
  split.
  - vm_compute. intros [H|[]]. discriminate H.
  - vm_compute. left; reflexivity.
Qed.



(** C7, as the loop has it: the pairs of a frame report are exactly the
    pairs (j, i) with j < i below the number of boxes, each printed once
    with the smaller index first; they come by ascending larger index and
    then ascending smaller index, so for four tracks the order is
    (0,1),(0,2),(1,2),(0,3),(1,3),(2,3). *)
Theorem pairs_once_by_later_index :
  (forall (T : Type) (w : world T) (boxes : list box)
          (qs : list (Z * Z * Z * Z)),
      Forall2 int_box boxes qs ->
      exists w',
        box_loop boxes (range (length boxes)) [] w
          = Ok (map (real_point (calibrationRef w)) qs) w'
        /\ map fst (distances_of (printed w w')) = printed_pairs (length boxes)
        /\ NoDup (map fst (distances_of (printed w w')))
        /\ forall a b,
            In (a, b) (map fst (distances_of (printed w w')))
            <-> (a < b < length boxes)%nat)
  /\ printed_pairs 4
     = [(0, 1); (0, 2); (1, 2); (0, 3); (1, 3); (2, 3)]%nat.
Proof.
  split; [|reflexivity].
  intros T w boxes qs Hqs.
  assert (Hlen : length qs = length boxes)
    by (symmetry; eapply Forall2_length; exact Hqs).
  eexists. split; [apply box_loop_report, Hqs|].
  rewrite printed_emit.
  assert (Hl : map fst (distances_of
                 (report_events 0 [] (map (real_point (calibrationRef w)) qs)))
               = printed_pairs (length boxes)).
  { rewrite (labels_report _ []). cbn [length].
    rewrite length_map, Hlen. reflexivity. }
  rewrite Hl. split; [reflexivity|].
  split; [apply printed_pairs_NoDup|].
  intros a b; apply printed_pairs_in.
Qed.

Lemma pairs_once_by_later_index_witness :
  exists w',
    box_loop Demo.boxes2 (range (length Demo.boxes2)) [] Demo.world0
      = Ok (map (real_point (calibrationRef Demo.world0)) Demo.ints2) w'
    /\ map fst (distances_of (printed Demo.world0 w'))
       = printed_pairs (length Demo.boxes2)
    /\ NoDup (map fst (distances_of (printed Demo.world0 w')))
    /\ forall a b,
        In (a, b) (map fst (distances_of (printed Demo.world0 w')))
        <-> (a < b < length Demo.boxes2)%nat.
Proof.
  apply (proj1 pairs_once_by_later_index Demo.tracker_obj Demo.world0
           Demo.boxes2 Demo.ints2).
  repeat constructor.
Defined.

(** C7 as the specification words it fails with four tracks: ascending i
    then ascending j would put (0,3) third, and the report has (1,2)
    there. *)
Lemma pair_order_counterexample :
  spec_pairs 4 = [(0, 1); (0, 2); (0, 3); (1, 2); (1, 3); (2, 3)]%nat
  /\ map fst (distances_of (Demo.next_report Demo.four_tracks))
     = [(0, 1); (0, 2); (1, 2); (0, 3); (1, 3); (2, 3)]%nat
  /\ map fst (distances_of (Demo.next_report Demo.four_tracks))
     <> spec_pairs 4.
Proof.
  split; [reflexivity|].
  split; [vm_compute; reflexivity|].
  vm_compute. intros H. discriminate H.
Qed.

(** ** The calibrate command: C3, C4, C5 *)

Section CalibrateLemmas.

Context {T : Type}.
Implicit Types (w : world T).

Lemma input_float_number w f rest :
  stdin w = Number f :: rest ->
  input_float w = Ok f (set_stdin _ rest w).
Proof. unfold input_float, bind, get; intros ->; reflexivity. Qed.

Lemma input_float_garbage w s rest :
  stdin w = NotANumber s :: rest ->
  input_float w = Raise ValueError (set_stdin _ rest w).
Proof. unfold input_float, bind, get; intros ->; reflexivity. Qed.

(** The four values parse and both sides of the rectangle are nonzero. *)
Lemma calibrate_ok w (calBox : box) x y wd h x0 y0 x1 y1 rest :
  int_box calBox (x, y, wd, h) ->
  stdin w = Number x0 :: Number y0 :: Number x1 :: Number y1 :: rest ->
  wd <> 0 -> h <> 0 ->
  calibrate calBox w
  = Ok tt (mkWorld
             (mkCalibration (mkRefPoint (x, y) (Flt x0, Flt y0))
                (Flt ((x1 - x0) / Z2F wd), Flt ((y1 - y0) / Z2F h)))
             (trackers w) (initBox w) (Some O) rest (stdout w)).
Proof.
  intros Hbox Hin Hwd Hh.
  destruct w as [c ts ib fp sin sout]; cbn in Hin; subst sin.
  unfold calibrate. rewrite (bind_ok _ _ _ _ _ (ints_of_ok _ _ _ Hbox)).
  apply Z.eqb_neq in Hwd, Hh.
  unfold bind, input_float, get, modify, lift, float_truediv, is_zero; cbn.
  rewrite Hwd; cbn. rewrite Hh; cbn. reflexivity.
Qed.

(** The four values parse and a side of the rectangle is zero. *)
Lemma calibrate_zero_side w (calBox : box) x y wd h x0 y0 x1 y1 rest :
  int_box calBox (x, y, wd, h) ->
  stdin w = Number x0 :: Number y0 :: Number x1 :: Number y1 :: rest ->
  wd = 0 \/ h = 0 ->
  calibrate calBox w
  = Raise ZeroDivisionError
      (mkWorld
         (mkCalibration (mkRefPoint (x, y) (Flt x0, Flt y0))
            (pixelsToTruthRatio (calibrationRef w)))
         (trackers w) (initBox w) (fps w) rest (stdout w)).
Proof.
  intros Hbox Hin Hz.
  destruct w as [c ts ib fp sin sout]; cbn in Hin; subst sin.
  unfold calibrate. rewrite (bind_ok _ _ _ _ _ (ints_of_ok _ _ _ Hbox)).
  unfold bind, input_float, get, modify, lift, float_truediv, is_zero; cbn.
  destruct (Z.eqb_spec wd 0) as [_|Hwd]; [reflexivity|].
  destruct Hz as [Hz|Hz]; [contradiction|]. subst h. reflexivity.
Qed.

(** A value that does not parse, after [pre] that do. *)
Lemma calibrate_garbage w (calBox : box) x y wd h pre s rest :
  int_box calBox (x, y, wd, h) ->
  (length pre < 4)%nat ->
  stdin w = map Number pre ++ NotANumber s :: rest ->
  calibrate calBox w
  = Raise ValueError
      (mkWorld
         (match pre with
          | x0 :: y0 :: _ =>
              mkCalibration (mkRefPoint (x, y) (Flt x0, Flt y0))
                (pixelsToTruthRatio (calibrationRef w))
          | _ => calibrationRef w
          end)
         (trackers w) (initBox w) (fps w) rest (stdout w)).
Proof.
  intros Hbox Hlen Hin.
  destruct w as [c ts ib fp sin sout]; cbn in Hin; subst sin.
  unfold calibrate. rewrite (bind_ok _ _ _ _ _ (ints_of_ok _ _ _ Hbox)).
  destruct pre as [|x0 [|y0 [|x1 [|y1 pre]]]]; cbn in Hlen; try lia;
    reflexivity.
Qed.

End CalibrateLemmas.

Section SessionLemmas.

Variable frame : Type.
Variable tracker_obj : Type.
Variable tracker_init : tracker_ctor -> frame -> box -> tracker_obj.
Variable tracker_update : tracker_obj -> frame -> tracker_obj * (bool * box).
Variable args_tracker : string.

Implicit Types (w : world tracker_obj) (t : tick frame) (f : frame).

Local Abbreviation iteration := (iteration tracker_init tracker_update args_tracker).
Local Abbreviation video_loop := (video_loop tracker_init tracker_update args_tracker).
Local Abbreviation serve_key := (serve_key tracker_init args_tracker).
Local Abbreviation frame_part := (frame_part tracker_update).

Lemma video_loop_raise t (ticks : list (tick frame)) w e w' :
  iteration t w = Raise e w' -> video_loop (t :: ticks) w = Raise e w'.
Proof. intros H; cbn [video_loop]; unfold bind; rewrite H; reflexivity. Qed.

Lemma iteration_frame t f w w1 :
  vs_read t = Some f -> frame_part f w = Ok tt w1 ->
  iteration t w = serve_key f t w1.
Proof.
  intros Hf Hw. unfold iteration. rewrite Hf.
  unfold bind at 1. rewrite Hw. reflexivity.
Qed.

Lemma serve_key_c f t w :
  Z.land (waitKey t) 255 = ord "c"%char ->
  serve_key f t w = bind (calibrate (selectROI t)) (fun _ => ret Continue) w.
Proof. unfold serve_key; intros ->; reflexivity. Qed.

(** A calibrate command that raises takes the whole loop with it. *)
Lemma calibrate_raise_ends_loop t f (ticks : list (tick frame)) w0 w e w' :
  vs_read t = Some f ->
  Z.land (waitKey t) 255 = ord "c"%char ->
  frame_part f w0 = Ok tt w ->
  calibrate (selectROI t) w = Raise e w' ->
  video_loop (t :: ticks) w0 = Raise e w'.
Proof.
  intros Hf Hk Hw Hc. apply video_loop_raise.
  rewrite (iteration_frame t f w0 w Hf Hw), serve_key_c by exact Hk.
  unfold bind; rewrite Hc; reflexivity.
Qed.

(** C4, as the script has it: a value that float() rejects during a
    calibrate command raises ValueError, which nothing catches, so the loop
    ends there and no later pass is served.  The trackers, initBox and the
    scale are as they were; refPixel and refTruth are as they were when the
    bad value is the first or the second, and are already the rectangle's
    corner and the first two values when it is the third or the fourth. *)
Theorem bad_number_ends_session :
  forall w0 w f t (ticks : list (tick frame)) x y wd h
         (pre : list float) (s : string) (rest : list typed),
    vs_read t = Some f ->
    Z.land (waitKey t) 255 = ord "c"%char ->
    frame_part f w0 = Ok tt w ->
    int_box (selectROI t) (x, y, wd, h) ->
    (length pre < 4)%nat ->
    stdin w = map Number pre ++ NotANumber s :: rest ->
    exists w',
      video_loop (t :: ticks) w0 = Raise ValueError w'
      /\ trackers w' = trackers w
      /\ initBox w' = initBox w
      /\ pixelsToTruthRatio (calibrationRef w')
         = pixelsToTruthRatio (calibrationRef w)
      /\ ((length pre < 2)%nat -> calibrationRef w' = calibrationRef w)
      /\ (forall x0 y0 tl, pre = x0 :: y0 :: tl ->
            refPoint (calibrationRef w') = mkRefPoint (x, y) (Flt x0, Flt y0)).
Proof.
  intros w0 w f t ticks x y wd h pre s rest Hf Hk Hw Hbox Hlen Hin.
  eexists. split.
  - eapply calibrate_raise_ends_loop; eauto.
    eapply calibrate_garbage; eauto.
  - cbn. repeat split.
    + destruct pre as [|x0 [|y0 tl]]; reflexivity.
    + intros Hlt. destruct pre as [|x0 [|y0 tl]]; cbn in Hlt; try lia;
        reflexivity.
    + intros x0 y0 tl ->. reflexivity.
Qed.

(** C5, as the script has it: a calibration rectangle with a zero side is
    not rejected.  The four values are read, refPixel and refTruth are
    overwritten, and the division by the zero side raises
    ZeroDivisionError, which ends the loop; the scale is as it was. *)
Theorem zero_side_divides_by_zero :
  forall w0 w f t (ticks : list (tick frame)) x y wd h
         (x0 y0 x1 y1 : float) (rest : list typed),
    vs_read t = Some f ->
    Z.land (waitKey t) 255 = ord "c"%char ->
    frame_part f w0 = Ok tt w ->
    int_box (selectROI t) (x, y, wd, h) ->
    stdin w = Number x0 :: Number y0 :: Number x1 :: Number y1 :: rest ->
    wd = 0 \/ h = 0 ->
    exists w',
      video_loop (t :: ticks) w0 = Raise ZeroDivisionError w'
      /\ stdin w' = rest
      /\ refPoint (calibrationRef w') = mkRefPoint (x, y) (Flt x0, Flt y0)
      /\ pixelsToTruthRatio (calibrationRef w')
         = pixelsToTruthRatio (calibrationRef w)
      /\ trackers w' = trackers w
      /\ initBox w' = initBox w.
Proof.
  intros w0 w f t ticks x y wd h x0 y0 x1 y1 rest Hf Hk Hw Hbox Hin Hz.
  eexists. split.
  - eapply calibrate_raise_ends_loop; eauto.
    eapply calibrate_zero_side; eauto.
  - cbn. repeat split.
Qed.

End SessionLemmas.

Lemma bad_number_ends_session_witness :
  exists w',
    Demo.run [Demo.cal_tick; Demo.tick_of Demo.no_key (Demo.rect 0 0 0 0)]
             (initial_world [Number 1; Number 2; NotANumber "abc"; Number 3])
      = Raise ValueError w'
    /\ trackers w' = []
    /\ initBox w' = None
    /\ pixelsToTruthRatio (calibrationRef w') = (Int 1, Int 1)
    /\ ((length [1%float; 2%float] < 2)%nat ->
        calibrationRef w' = default_calibration)
    /\ (forall x0 y0 tl, [1%float; 2%float] = x0 :: y0 :: tl ->
          refPoint (calibrationRef w') = mkRefPoint (5, 5) (Flt x0, Flt y0)).
Proof.
  apply (bad_number_ends_session Demo.frame Demo.tracker_obj
           Demo.tracker_init Demo.tracker_update "medianflow"
           (initial_world [Number 1; Number 2; NotANumber "abc"; Number 3])
           (initial_world [Number 1; Number 2; NotANumber "abc"; Number 3])
           tt Demo.cal_tick
           [Demo.tick_of Demo.no_key (Demo.rect 0 0 0 0)]
           5 5 100 50 [1%float; 2%float] "abc" [Number 3]).
  - reflexivity.
  - reflexivity.
  - reflexivity.
  - repeat constructor.
  - cbn; lia.
  - reflexivity.
Defined.

(** C4 as the specification words it fails when the third value does not
    parse: the session does not continue, and refPixel and refTruth are no
    longer what they were. *)
Lemma bad_number_counterexample :
  exists w',
    Demo.run [Demo.cal_tick; Demo.tick_of Demo.no_key (Demo.rect 0 0 0 0)]
             (initial_world [Number 1; Number 2; NotANumber "abc"; Number 3])
      = Raise ValueError w'
    /\ calibrationRef w' <> default_calibration
    /\ refPoint (calibrationRef w') = mkRefPoint (5, 5) (Flt 1, Flt 2).
Proof.
  eexists. split; [vm_compute; reflexivity|].
  split; [|reflexivity].
  cbn. unfold default_calibration. intros H. discriminate H.
Qed.

Lemma zero_side_divides_by_zero_witness :
  exists w',
    Demo.run [Demo.tick_of (Demo.key "c") (Demo.rect 0 0 0 50);
              Demo.tick_of Demo.no_key (Demo.rect 0 0 0 0)]
             (initial_world [Number 0; Number 0; Number 10; Number 5])
      = Raise ZeroDivisionError w'
    /\ stdin w' = []
    /\ refPoint (calibrationRef w') = mkRefPoint (0, 0) (Flt 0, Flt 0)
    /\ pixelsToTruthRatio (calibrationRef w') = (Int 1, Int 1)
    /\ trackers w' = []
    /\ initBox w' = None.
Proof.
  apply (zero_side_divides_by_zero Demo.frame Demo.tracker_obj
           Demo.tracker_init Demo.tracker_update "medianflow"
           (initial_world [Number 0; Number 0; Number 10; Number 5])
           (initial_world [Number 0; Number 0; Number 10; Number 5])
           tt (Demo.tick_of (Demo.key "c") (Demo.rect 0 0 0 50))
           [Demo.tick_of Demo.no_key (Demo.rect 0 0 0 0)]
           0 0 0 50 0%float 0%float 10%float 5%float []).
  - reflexivity.
  - reflexivity.
  - reflexivity.
  - repeat constructor.
  - reflexivity.
  - left; reflexivity.
Defined.

(** C5 as the specification words it fails on a rectangle of width 0: the
    command is not rejected up front, all four values are taken from the
    keyboard, and the division by the width is made and raises. *)
Lemma zero_side_counterexample :
  exists w',
    Demo.run [Demo.tick_of (Demo.key "c") (Demo.rect 0 0 0 50)]
             (initial_world [Number 0; Number 0; Number 10; Number 5])
      = Raise ZeroDivisionError w'
    /\ stdin w' = []
    /\ float_truediv (10 - 0) (Int 0) = inl ZeroDivisionError.
Proof.
  eexists. split; [vm_compute; reflexivity|].
  split; reflexivity.
Qed.

(** C3: a calibrate command on a rectangle at (x, y) of nonzero width and
    height, with the values x0, y0 for its first corner and x1, y1 for the
    opposite one, leaves refPixel = (x, y), refTruth = (x0, y0) and scale =
    ((x1 - x0) / width, (y1 - y0) / height).  For the rectangle from (0,0)
    to (100,50) and the values 0, 0, 10, 5 the scale is (0.1, 0.1), the
    double nearest to one tenth, and calibrateXY then takes (50,25) to
    (5.0, 2.5). *)
Theorem calibrate_sets_reference_and_scale :
  (forall (T : Type) (w : world T) (calBox : box) x y wd h
          (x0 y0 x1 y1 : float) (rest : list typed),
      int_box calBox (x, y, wd, h) ->
      stdin w = Number x0 :: Number y0 :: Number x1 :: Number y1 :: rest ->
      wd <> 0 -> h <> 0 ->
      exists w',
        calibrate calBox w = Ok tt w'
        /\ pixels (refPoint (calibrationRef w')) = (x, y)
        /\ truth (refPoint (calibrationRef w')) = (Flt x0, Flt y0)
        /\ pixelsToTruthRatio (calibrationRef w')
           = (Flt ((x1 - x0) / Z2F wd), Flt ((y1 - y0) / Z2F h)))
  /\ (forall (T : Type) (w : world T) (rest : list typed),
        stdin w = Number 0 :: Number 0 :: Number 10 :: Number 5 :: rest ->
        exists w',
          calibrate (Demo.rect 0 0 100 50) w = Ok tt w'
          /\ pixelsToTruthRatio (calibrationRef w')
             = (Flt 0x1.999999999999ap-4, Flt 0x1.999999999999ap-4)
          /\ forall (A : Type) (ref : A),
              calibrateXY (calibrationRef w') (50, 25) ref
              = (Flt 5, Flt 2.5)).
Proof.
  split.
  - intros T w calBox x y wd h x0 y0 x1 y1 rest Hbox Hin Hwd Hh.
    eexists. split; [eapply calibrate_ok; eauto|]. cbn. repeat split.
  - intros T w rest Hin. eexists. split.
    + apply (calibrate_ok w (Demo.rect 0 0 100 50) 0 0 100 50
               0 0 10 5 rest); [repeat constructor|exact Hin|lia|lia].
    + cbn. split; [vm_compute; reflexivity|].
      intros A ref. vm_compute. reflexivity.
Qed.

Lemma calibrate_sets_reference_and_scale_witness :
  exists w',
    calibrate (Demo.rect 5 5 100 50)
      (initial_world (tracker_obj := Demo.tracker_obj)
         [Number 1; Number 2; Number 11; Number 7]) = Ok tt w'
    /\ pixels (refPoint (calibrationRef w')) = (5, 5)
    /\ truth (refPoint (calibrationRef w')) = (Flt 1, Flt 2)
    /\ pixelsToTruthRatio (calibrationRef w')
       = (Flt ((11 - 1) / Z2F 100), Flt ((7 - 2) / Z2F 50)).
Proof.
  apply (proj1 calibrate_sets_reference_and_scale Demo.tracker_obj
           (initial_world [Number 1; Number 2; Number 11; Number 7])
           (Demo.rect 5 5 100 50) 5 5 100 50 1%float 2%float 11%float 7%float []).
  - repeat constructor.
  - reflexivity.
  - lia.
  - lia.
Defined.

(** ** The session as a state machine: C9 *)

Section Keeps.

Context {S : Type} (R : S -> S -> Prop).
Hypothesis R_refl : forall s, R s s.
Hypothesis R_trans : forall a b c, R a b -> R b c -> R a c.

Lemma keeps_ret {A : Type} (a : A) : keeps R (ret a).
Proof. intros s; apply R_refl. Qed.

Lemma keeps_raise {A : Type} (e : exn) : keeps R (@raise S A e).
Proof. intros s; apply R_refl. Qed.

Lemma keeps_get : keeps R (@get S).
Proof. intros s; apply R_refl. Qed.

Lemma keeps_lift {A : Type} (r : exn + A) : keeps R (@lift S A r).
Proof. destruct r; [apply keeps_raise|apply keeps_ret]. Qed.

Lemma keeps_modify (f : S -> S) : (forall s, R s (f s)) -> keeps R (modify f).
Proof. intros H s; apply H. Qed.

Lemma keeps_bind {A B : Type} (c : M S A) (k : A -> M S B) :
  keeps R c -> (forall a, keeps R (k a)) -> keeps R (bind c k).
Proof.
  intros Hc Hk s. unfold bind. specialize (Hc s).
  destruct (c s) as [a s'|e s']; cbn in Hc |- *; [|exact Hc].
  eapply R_trans; [exact Hc|apply Hk].
Qed.

End Keeps.



Lemma steady_refl {T : Type} (w : world T) : steady w w.
Proof. repeat split; tauto. Qed.

Lemma steady_trans {T : Type} (a b c : world T) :
  steady a b -> steady b c -> steady a c.
Proof.
  intros (H1 & H2 & H3 & H4) (H5 & H6 & H7 & H8).
  repeat split; try congruence. tauto.
Qed.


Lemma tracked_refl {T : Type} (w : world T) : tracked w w.
Proof. repeat split; tauto. Qed.

Lemma tracked_trans {T : Type} (a b c : world T) :
  tracked a b -> tracked b c -> tracked a c.
Proof.
  intros (H1 & H2 & H3) (H4 & H5 & H6). repeat split; try congruence. tauto.
Qed.

Lemma steady_tracked {T : Type} (w w' : world T) : steady w w' -> tracked w w'.
Proof. intros (_ & Ht & Hi & Hf). repeat split; [exact Hi|rewrite Ht; reflexivity|exact Hf]. Qed.


Lemma keeps_weaken {S A : Type} (R R' : S -> S -> Prop) (c : M S A) :
  (forall a b, R a b -> R' a b) -> keeps R c -> keeps R' c.
Proof. intros H Hc s; apply H, Hc. Qed.

(** One step of a proof that a computation keeps [steady] or [tracked]. *)
Ltac keeps_steady :=
  repeat first
    [ apply (keeps_ret steady steady_refl)
    | apply (keeps_raise steady steady_refl)
    | apply (keeps_get steady steady_refl)
    | apply (keeps_lift steady steady_refl)
    | apply keeps_modify; intros ?; repeat split; cbn; congruence
    | apply (keeps_bind steady steady_trans); [|intros ?] ].

Ltac keeps_tracked :=
  repeat first
    [ apply (keeps_ret tracked tracked_refl)
    | apply (keeps_raise tracked tracked_refl)
    | apply (keeps_get tracked tracked_refl)
    | apply (keeps_lift tracked tracked_refl)
    | apply keeps_modify; intros ?; repeat split; cbn; congruence
    | apply (keeps_bind tracked tracked_trans); [|intros ?] ].

Section StateMachine.

Variable frame : Type.
Variable tracker_obj : Type.
Variable tracker_init : tracker_ctor -> frame -> box -> tracker_obj.
Variable tracker_update : tracker_obj -> frame -> tracker_obj * (bool * box).
Variable args_tracker : string.

Implicit Types (w : world tracker_obj) (t : tick frame) (f : frame).

Local Abbreviation iteration := (iteration tracker_init tracker_update args_tracker).
Local Abbreviation video_loop := (video_loop tracker_init tracker_update args_tracker).
Local Abbreviation serve_key := (serve_key tracker_init args_tracker).
Local Abbreviation add_region := (add_region tracker_init args_tracker).
Local Abbreviation frame_part := (frame_part tracker_update).
Local Abbreviation track_frame := (track_frame tracker_update).
Local Abbreviation MultiTracker_update := (MultiTracker_update tracker_update).

Lemma ints_of_steady (b : box) : keeps steady (@ints_of tracker_obj b).
Proof.
  destruct b as [[[bx by_] bw] bh]. unfold ints_of. keeps_steady.
Qed.

Lemma input_float_steady : keeps steady (@input_float tracker_obj).
Proof.
  unfold input_float. keeps_steady.
  destruct (stdin a) as [|l rest]; keeps_steady. destruct l; keeps_steady.
Qed.

Lemma calibrate_steady (calBox : box) :
  keeps steady (@calibrate tracker_obj calBox).
Proof.
  unfold calibrate.
  apply (keeps_bind steady steady_trans); [apply ints_of_steady|].
  intros [[[x y] wd] h].
  apply (keeps_bind steady steady_trans); [apply input_float_steady|intros x0].
  apply (keeps_bind steady steady_trans); [apply input_float_steady|intros y0].
  apply (keeps_bind steady steady_trans); [keeps_steady|intros _].
  apply (keeps_bind steady steady_trans); [keeps_steady|intros _].
  apply (keeps_bind steady steady_trans); [apply input_float_steady|intros x1].
  apply (keeps_bind steady steady_trans); [apply input_float_steady|intros y1].
  keeps_steady.
Qed.

Lemma print_tracked (e : event) : keeps tracked (@print tracker_obj e).
Proof. unfold print. keeps_tracked. Qed.

Lemma index_tracked {A : Type} (l : list A) (i : nat) :
  keeps tracked (@index tracker_obj A l i).
Proof. unfold index. destruct (nth_error l i); keeps_tracked. Qed.

Lemma ints_of_tracked (b : box) : keeps tracked (@ints_of tracker_obj b).
Proof. apply (keeps_weaken steady), ints_of_steady. apply steady_tracked. Qed.

Lemma distance_loop_tracked i (realXY : point) (realPoints : list point) js :
  keeps tracked (@distance_loop tracker_obj i realXY realPoints js).
Proof.
  induction js as [|j js IH]; cbn [distance_loop]; [keeps_tracked|].
  apply (keeps_bind tracked tracked_trans); [apply index_tracked|intros pj].
  apply (keeps_bind tracked tracked_trans); [apply print_tracked|intros _].
  exact IH.
Qed.

Lemma box_loop_tracked (boxes : list box) (idx : list nat) :
  forall realPoints, keeps tracked (@box_loop tracker_obj boxes idx realPoints).
Proof.
  induction idx as [|i idx IH]; intros realPoints; cbn [box_loop];
    [keeps_tracked|].
  apply (keeps_bind tracked tracked_trans); [apply index_tracked|intros b].
  apply (keeps_bind tracked tracked_trans); [apply ints_of_tracked|].
  intros [[[x y] wd] h].
  apply (keeps_bind tracked tracked_trans); [keeps_tracked|intros g].
  apply (keeps_bind tracked tracked_trans); [apply print_tracked|intros _].
  apply (keeps_bind tracked tracked_trans);
    [apply distance_loop_tracked|intros _].
  apply IH.
Qed.

Lemma fps_update_tracked : keeps tracked (@fps_update tracker_obj).
Proof.
  unfold fps_update.
  apply (keeps_bind tracked tracked_trans); [keeps_tracked|intros g].
  destruct (fps g); keeps_tracked.
Qed.

Lemma MultiTracker_update_length (ts : list tracker_obj) f :
  length (fst (MultiTracker_update ts f)) = length ts
  /\ length (snd (snd (MultiTracker_update ts f))) = length ts.
Proof.
  induction ts as [|t ts [IH1 IH2]]; [split; reflexivity|].
  cbn [MultiTracker_update].
  destruct (tracker_update t f) as [t' [ok b]].
  destruct (MultiTracker_update ts f) as [ts' [oks bs]].
  cbn in *. split; congruence.
Qed.

Lemma track_frame_tracked f : keeps tracked (track_frame f).
Proof.
  intros w. unfold track_frame, bind at 1, get.
  pose proof (MultiTracker_update_length (trackers w) f) as [Hlen _].
  destruct (MultiTracker_update (trackers w) f) as [ts [ok boxes]].
  cbn [fst] in Hlen.
  unfold bind at 1, modify.
  apply (tracked_trans w (set_trackers _ ts w)).
  - repeat split; cbn; [exact Hlen|tauto].
  - revert ts Hlen. intros ts _.
    generalize (set_trackers _ ts w). change (keeps tracked
      (bind (print Blank) (fun _ =>
         bind (box_loop boxes (range (length boxes)) [])
              (fun _ => @fps_update tracker_obj)))).
    apply (keeps_bind tracked tracked_trans); [apply print_tracked|intros _].
    apply (keeps_bind tracked tracked_trans); [apply box_loop_tracked|intros _].
    apply fps_update_tracked.
Qed.

Lemma frame_part_tracked f : keeps tracked (frame_part f).
Proof.
  intros w. unfold frame_part, bind, get.
  destruct (initBox w); [apply track_frame_tracked|apply tracked_refl].
Qed.


(** A frame while tracking, the boxes being numbers [int] accepts. *)
Lemma track_frame_report f w ts ok (boxes : list box) qs n :
  MultiTracker_update (trackers w) f = (ts, (ok, boxes)) ->
  Forall2 int_box boxes qs ->
  fps w = Some n ->
  track_frame f w
  = Ok tt (mkWorld (calibrationRef w) ts (initBox w) (Some (S n)) (stdin w)
             (stdout w ++ Blank
                :: report_events 0 [] (map (real_point (calibrationRef w)) qs))).
Proof.
  intros Hup Hqs Hfps.
  unfold track_frame, bind at 1, get. rewrite Hup.
  unfold bind at 1, modify. unfold bind at 1. rewrite print_emit.
  unfold bind at 1. rewrite (box_loop_report boxes qs) by exact Hqs.
  destruct w as [c tr ib fp sin sout]; cbn in Hfps; subst fp.
  unfold fps_update, bind, get, modify, emit, set_trackers, set_fps; cbn.
  rewrite <- app_assoc. reflexivity.
Qed.

Lemma add_region_ok f (roi : box) w (c : tracker_ctor) :
  dict_get OPENCV_OBJECT_TRACKERS args_tracker = inr c ->
  add_region f roi w
  = Ok tt (mkWorld (calibrationRef w) (trackers w ++ [tracker_init c f roi])
             (Some roi) (Some O) (stdin w) (stdout w)).
Proof.
  intros Hc. unfold add_region, bind, modify, lift. rewrite Hc.
  reflexivity.
Qed.

Lemma add_region_raise f (roi : box) w (e : exn) :
  dict_get OPENCV_OBJECT_TRACKERS args_tracker = inl e ->
  add_region f roi w = Raise e (set_initBox _ (Some roi) w).
Proof.
  intros Hc. unfold add_region, bind, modify, lift. rewrite Hc.
  reflexivity.
Qed.

Lemma printed_app w w' (l : list event) :
  stdout w' = stdout w ++ l -> printed w w' = l.
Proof.
  unfold printed; intros ->.
  rewrite skipn_app, skipn_all, Nat.sub_diag; reflexivity.
Qed.

Lemma tracked_inv w w' : tracked w w' -> session_inv w -> session_inv w'.
Proof.
  intros (Hi & Ht & Hf) [Hn Hs]. split.
  - rewrite Hi, Hn, <- !length_zero_iff_nil, Ht. tauto.
  - rewrite Hi. tauto.
Qed.


Lemma serve_key_inv f t w c w' :
  session_inv w -> serve_key f t w = Ok c w' -> session_inv w'.
Proof.
  intros Hinv. unfold serve_key.
  destruct (Z.land (waitKey t) 255 =? ord "s"%char).
  - unfold bind at 1.
    destruct (dict_get OPENCV_OBJECT_TRACKERS args_tracker) as [e|k] eqn:E.
    + rewrite (add_region_raise f _ w e E). discriminate.
    + rewrite (add_region_ok f _ w k E). intros H; inversion H; subst.
      split; cbn.
      * split; [discriminate|].
        intros H0. apply app_eq_nil in H0 as [_ H0]. discriminate.
      * discriminate.
  - destruct (Z.land (waitKey t) 255 =? ord "c"%char).
    + unfold bind at 1.
      pose proof (calibrate_steady (selectROI t) w) as H.
      destruct (calibrate (selectROI t) w) as [u w1|e w1]; cbn in H;
        [|discriminate].
      intros H0; inversion H0; subst.
      eapply tracked_inv; [apply steady_tracked, H|exact Hinv].
    + destruct (Z.land (waitKey t) 255 =? ord "q"%char);
        intros H; inversion H; subst; exact Hinv.
Qed.

Lemma iteration_inv t w c w' :
  session_inv w -> iteration t w = Ok c w' -> session_inv w'.
Proof.
  intros Hinv. unfold iteration.
  destruct (vs_read t) as [f|]; [|intros H; inversion H; subst; exact Hinv].
  unfold bind at 1. pose proof (frame_part_tracked f w) as Ht.
  destruct (frame_part f w) as [u w1|e w1]; cbn in Ht; [|discriminate].
  apply serve_key_inv. eapply tracked_inv; eassumption.
Qed.




End StateMachine.


(** ** Further properties of the commands and of the loop *)



Lemma dict_get_error {V : Type} (d : list (string * V)) (k : string) (e : exn) :
  dict_get d k = inl e -> e = KeyError.
Proof.
  induction d as [|[k' v] d IH]; cbn; [congruence|].
  destruct (String.eqb k k'); [discriminate|exact IH].
Qed.

Lemma land_255 (k : Z) : Z.land k 255 = k mod 256.
Proof. change 255 with (Z.ones 8). rewrite Z.land_ones by lia. reflexivity. Qed.

(** The keyboard is closed after [pre], fewer than four values. *)
Lemma calibrate_eof {T : Type} (w : world T) (calBox : box) x y wd h pre :
  int_box calBox (x, y, wd, h) ->
  (length pre < 4)%nat ->
  stdin w = map Number pre ->
  calibrate calBox w
  = Raise EOFError
      (mkWorld
         (match pre with
          | x0 :: y0 :: _ =>
              mkCalibration (mkRefPoint (x, y) (Flt x0, Flt y0))
                (pixelsToTruthRatio (calibrationRef w))
          | _ => calibrationRef w
          end)
         (trackers w) (initBox w) (fps w) [] (stdout w)).
Proof.
  intros Hbox Hlen Hin.
  destruct w as [c ts ib fp sin sout]; cbn in Hin; subst sin.
  unfold calibrate. rewrite (bind_ok _ _ _ _ _ (ints_of_ok _ _ _ Hbox)).
  destruct pre as [|x0 [|y0 [|x1 [|y1 pre]]]]; cbn in Hlen; try lia;
    reflexivity.
Qed.

Section Commands.

Variable frame : Type.
Variable tracker_obj : Type.
Variable tracker_init : tracker_ctor -> frame -> box -> tracker_obj.
Variable tracker_update : tracker_obj -> frame -> tracker_obj * (bool * box).
Variable args_tracker : string.

Implicit Types (w : world tracker_obj) (t : tick frame) (f : frame).

Local Abbreviation iteration := (iteration tracker_init tracker_update args_tracker).
Local Abbreviation video_loop := (video_loop tracker_init tracker_update args_tracker).
Local Abbreviation serve_key := (serve_key tracker_init args_tracker).
Local Abbreviation add_region := (add_region tracker_init args_tracker).
Local Abbreviation frame_part := (frame_part tracker_update).
Local Abbreviation track_frame := (track_frame tracker_update).
Local Abbreviation MultiTracker_update := (MultiTracker_update tracker_update).


Lemma serve_key_q f t w :
  Z.land (waitKey t) 255 = ord "q"%char -> serve_key f t w = Ok Break w.
Proof. unfold serve_key; intros ->; reflexivity. Qed.

Lemma serve_key_other f t w :
  Z.land (waitKey t) 255 <> ord "s"%char ->
  Z.land (waitKey t) 255 <> ord "c"%char ->
  Z.land (waitKey t) 255 <> ord "q"%char ->
  serve_key f t w = Ok Continue w.
Proof.
  intros Hs Hc Hq. unfold serve_key.
  apply Z.eqb_neq in Hs, Hc, Hq. rewrite Hs, Hc, Hq. reflexivity.
Qed.


(** X2: a keyboard that is closed before the fourth value makes input()
    raise EOFError during a calibrate command, and the loop ends; the
    scale, the trackers and initBox are as they were, and refPixel and
    refTruth are already overwritten when two values had been read. *)
Theorem closed_keyboard_ends_session :
  forall w0 w f t (ticks : list (tick frame)) x y wd h (pre : list float),
    vs_read t = Some f ->
    Z.land (waitKey t) 255 = ord "c"%char ->
    frame_part f w0 = Ok tt w ->
    int_box (selectROI t) (x, y, wd, h) ->
    (length pre < 4)%nat ->
    stdin w = map Number pre ->
    exists w',
      video_loop (t :: ticks) w0 = Raise EOFError w'
      /\ trackers w' = trackers w
      /\ initBox w' = initBox w
      /\ pixelsToTruthRatio (calibrationRef w')
         = pixelsToTruthRatio (calibrationRef w)
      /\ ((length pre < 2)%nat -> calibrationRef w' = calibrationRef w)
      /\ (forall x0 y0 tl, pre = x0 :: y0 :: tl ->
            refPoint (calibrationRef w') = mkRefPoint (x, y) (Flt x0, Flt y0)).
Proof.
  intros w0 w f t ticks x y wd h pre Hf Hk Hw Hbox Hlen Hin.
  eexists. split.
  - eapply calibrate_raise_ends_loop; eauto.
    eapply calibrate_eof; eauto.
  - cbn. repeat split.
    + destruct pre as [|x0 [|y0 tl]]; reflexivity.
    + intros Hlt. destruct pre as [|x0 [|y0 tl]]; cbn in Hlt; try lia;
        reflexivity.
    + intros x0 y0 tl ->. reflexivity.
Qed.

(** X6: only the low eight bits of the key code count: two codes that
    agree modulo 256 are served alike, and a code whose low byte is none of
    's', 'c', 'q' (as -1, no key) changes nothing and lets the loop go
    on. *)
Theorem key_code_low_byte :
  (forall f t t' w,
      selectROI t = selectROI t' ->
      waitKey t mod 256 = waitKey t' mod 256 ->
      serve_key f t w = serve_key f t' w)
  /\ (forall f t w,
        waitKey t mod 256 <> 115 ->
        waitKey t mod 256 <> 99 ->
        waitKey t mod 256 <> 113 ->
        serve_key f t w = Ok Continue w).
Proof.
  split.
  - intros f t t' w Hroi Hk. unfold serve_key.
    rewrite !land_255, Hk, Hroi. reflexivity.
  - intros f t w Hs Hc Hq.
    apply serve_key_other; rewrite land_255; assumption.
Qed.

(** X8: the loop ends at the first pass that has no frame or whose key is
    'q': whatever passes would follow are never run. *)
Theorem loop_ends_at_eos_or_quit :
  forall (ts1 : list (tick frame)) t (ts2 : list (tick frame)) w,
    vs_read t = None \/ Z.land (waitKey t) 255 = ord "q"%char ->
    video_loop (ts1 ++ t :: ts2) w = video_loop (ts1 ++ [t]) w.
Proof.
  intros ts1 t ts2 w Hend. revert w.
  induction ts1 as [|a ts1 IH]; intros w; cbn [app video_loop]; unfold bind.
  - assert (H : forall c w', iteration t w = Ok c w' -> c = Break).
    { intros c w'. unfold iteration.
      destruct (vs_read t) as [f|] eqn:Ef.
      - destruct Hend as [Hend|Hend]; [discriminate|].
        unfold bind. destruct (frame_part f w) as [u w1|e w1]; [|discriminate].
        rewrite serve_key_q by exact Hend. congruence.
      - unfold ret. congruence. }
    destruct (iteration t w) as [c w'|e w'] eqn:E; [|reflexivity].
    rewrite (H c w' eq_refl). reflexivity.
  - destruct (iteration a w) as [[|] w'|e w']; [apply IH|reflexivity|reflexivity].
Qed.

End Commands.


Lemma closed_keyboard_ends_session_witness :
  exists w',
    Demo.run [Demo.cal_tick; Demo.tick_of Demo.no_key (Demo.rect 0 0 0 0)]
             (initial_world [Number 1; Number 2; Number 3])
      = Raise EOFError w'
    /\ trackers w' = []
    /\ initBox w' = None
    /\ pixelsToTruthRatio (calibrationRef w') = (Int 1, Int 1)
    /\ ((length [1%float; 2%float; 3%float] < 2)%nat ->
        calibrationRef w' = default_calibration)
    /\ (forall x0 y0 tl, [1%float; 2%float; 3%float] = x0 :: y0 :: tl ->
          refPoint (calibrationRef w') = mkRefPoint (5, 5) (Flt x0, Flt y0)).
Proof.
  apply (closed_keyboard_ends_session Demo.frame Demo.tracker_obj
           Demo.tracker_init Demo.tracker_update "medianflow"
           (initial_world [Number 1; Number 2; Number 3])
           (initial_world [Number 1; Number 2; Number 3])
           tt Demo.cal_tick
           [Demo.tick_of Demo.no_key (Demo.rect 0 0 0 0)]
           5 5 100 50 [1%float; 2%float; 3%float]).
  - reflexivity.
  - reflexivity.
  - reflexivity.
  - repeat constructor.
  - cbn; lia.
  - reflexivity.
Defined.

Lemma key_code_low_byte_witness :
  Demo.serve tt (Demo.tick_of 115 (Demo.rect 10 10 20 20)) Demo.world0
  = Demo.serve tt (Demo.tick_of (115 + 256) (Demo.rect 10 10 20 20)) Demo.world0.
Proof.
  apply (proj1 (key_code_low_byte Demo.frame Demo.tracker_obj
                  Demo.tracker_init "medianflow")); reflexivity.
Defined.

Lemma loop_ends_at_eos_or_quit_witness :
  Demo.run ([Demo.tick_of (Demo.key "s") (Demo.rect 10 10 20 20)]
            ++ Demo.tick_of (Demo.key "q") (Demo.rect 0 0 0 0)
               :: [Demo.tick_of (Demo.key "s") (Demo.rect 50 50 20 20)])
           Demo.world0
  = Demo.run ([Demo.tick_of (Demo.key "s") (Demo.rect 10 10 20 20)]
              ++ [Demo.tick_of (Demo.key "q") (Demo.rect 0 0 0 0)])
             Demo.world0.
Proof.
  apply (loop_ends_at_eos_or_quit Demo.frame Demo.tracker_obj
           Demo.tracker_init Demo.tracker_update "medianflow").
  right; reflexivity.
Defined.



(** Doubles: zero times a finite number is a zero, and a zero plus a number
    compares equal to that number. *)
Lemma zero_times_finite (s : float) :
  float_is_finite s = true -> exists b, Prim2SF (Z2F 0 * s) = S754_zero b.
Proof.
  unfold float_is_finite. intros Hs.
  rewrite mul_spec. change (Prim2SF (Z2F 0)) with (S754_zero false).
  unfold SF64mul, SFmul.
  destruct (Prim2SF s) as [b|b| |b m e]; try discriminate; eexists; reflexivity.
Qed.

Lemma SFeqb_refl (x : spec_float) : x <> S754_nan -> SFeqb x x = true.
Proof.
  intros Hx. unfold SFeqb, SFcompare.
  destruct x as [b|b| |b m e]; [reflexivity|destruct b; reflexivity|congruence|].
  destruct b; rewrite Z.compare_refl, ?Pos.compare_cont_refl; reflexivity.
Qed.

Lemma zero_plus (z x : float) (b : bool) :
  Prim2SF z = S754_zero b -> float_is_nan x = false ->
  (z + x =? x)%float = true.
Proof.
  unfold float_is_nan. intros Hz Hx.
  rewrite FloatAxioms.eqb_spec, add_spec. unfold SF64add, SFadd. rewrite Hz.
  destruct (Prim2SF x) as [b'|b'| |b' m e] eqn:Ex; try discriminate.
  - destruct b, b'; reflexivity.
  - apply SFeqb_refl; discriminate.
  - apply SFeqb_refl; discriminate.
Qed.

(** X4: calibrateXY takes the reference pixel to the reference truth.  With
    an integer calibration (the default one) the result is the reference
    truth itself; with a calibration in doubles, finite scale and a
    reference truth that is not nan, the result compares equal (==) to the
    reference truth on both axes. *)
Theorem reference_pixel_to_reference_truth :
  (forall (A : Type) (c : calibration) (a b sx sy : Z) (ref : A),
      truth (refPoint c) = (Int a, Int b) ->
      pixelsToTruthRatio c = (Int sx, Int sy) ->
      calibrateXY c (pixels (refPoint c)) ref = (Int a, Int b))
  /\ (forall (A : Type) (c : calibration) (x0 y0 sx sy : float) (ref : A),
        truth (refPoint c) = (Flt x0, Flt y0) ->
        pixelsToTruthRatio c = (Flt sx, Flt sy) ->
        float_is_finite sx = true -> float_is_finite sy = true ->
        float_is_nan x0 = false -> float_is_nan y0 = false ->
        exists rx ry,
          calibrateXY c (pixels (refPoint c)) ref = (Flt rx, Flt ry)
          /\ (rx =? x0)%float = true
          /\ (ry =? y0)%float = true).
Proof.
  split.
  - intros A c a b sx sy ref Ht Hs. unfold calibrateXY.
    rewrite Ht, Hs; cbn. f_equal; f_equal; lia.
  - intros A c x0 y0 sx sy ref Ht Hs Hfx Hfy Hnx Hny. unfold calibrateXY.
    rewrite Ht, Hs; cbn [fst snd py_sub py_mul py_add to_float].
    rewrite !Z.sub_diag.
    destruct (zero_times_finite sx Hfx) as [bx Hbx].
    destruct (zero_times_finite sy Hfy) as [by_ Hby].
    eexists. eexists. split; [reflexivity|].
    split; eapply zero_plus; eassumption.
Qed.

Lemma reference_pixel_to_reference_truth_witness :
  exists rx ry,
    calibrateXY
      (mkCalibration (mkRefPoint (5, 5) (Flt 1, Flt 2))
                     (Flt 0x1.999999999999ap-4, Flt 0x1.999999999999ap-4))
      (pixels (refPoint
         (mkCalibration (mkRefPoint (5, 5) (Flt 1, Flt 2))
                        (Flt 0x1.999999999999ap-4, Flt 0x1.999999999999ap-4))))
      tt
      = (Flt rx, Flt ry)
    /\ (rx =? 1)%float = true
    /\ (ry =? 2)%float = true.
Proof.
  apply (proj2 reference_pixel_to_reference_truth unit
           (mkCalibration (mkRefPoint (5, 5) (Flt 1, Flt 2))
                          (Flt 0x1.999999999999ap-4, Flt 0x1.999999999999ap-4))
           1%float 2%float 0x1.999999999999ap-4%float
           0x1.999999999999ap-4%float tt); reflexivity.
Defined.

Lemma real_point_default (q : Z * Z * Z * Z) :
  real_point default_calibration q
  = (Int (fst (center q)), Int (snd (center q))).
Proof.
  unfold real_point, calibrateXY, default_calibration; cbn.
  f_equal; f_equal; lia.
Qed.

Lemma spec_delta_default (qs : list (Z * Z * Z * Z)) (i j : nat) d :
  spec_delta (map (real_point default_calibration) qs) i j = Some d
  <-> exists qi qj,
        nth_error qs i = Some qi /\ nth_error qs j = Some qj
        /\ d = (Int (fst (center qi) - fst (center qj)),
                Int (snd (center qi) - snd (center qj))).
Proof.
  unfold spec_delta. rewrite !nth_error_map.
  destruct (nth_error qs i) as [qi|], (nth_error qs j) as [qj|];
    cbn [option_map].
  - rewrite !real_point_default; cbn [fst snd py_sub]. split.
    + intros H; inversion H; subst. exists qi, qj. repeat split.
    + intros (qi' & qj' & Hi & Hj & ->). inversion Hi; inversion Hj; subst.
      reflexivity.
  - split; [discriminate|]. intros (qi' & qj' & _ & Hj & _); discriminate.
  - split; [discriminate|]. intros (qi' & qj' & Hi & _); discriminate.
  - split; [discriminate|]. intros (qi' & qj' & Hi & _); discriminate.
Qed.

(** X5: until a calibration is made, distances are in pixels: under the
    default calibration the line for the pair (j, i), j < i, carries the
    integer difference of the two box centres, centre i minus centre j. *)
Theorem default_distances_are_pixel_differences :
  forall (T : Type) (w : world T) (boxes : list box)
         (qs : list (Z * Z * Z * Z)),
    calibrationRef w = default_calibration ->
    Forall2 int_box boxes qs ->
    exists pts w',
      box_loop boxes (range (length boxes)) [] w = Ok pts w'
      /\ forall j i d,
          In ((j, i), d) (distances_of (printed w w'))
          <-> (j < i)%nat
              /\ exists qi qj,
                   nth_error qs i = Some qi /\ nth_error qs j = Some qj
                   /\ d = (Int (fst (center qi) - fst (center qj)),
                           Int (snd (center qi) - snd (center qj))).
Proof.
  intros T w boxes qs Hc Hqs. eexists. eexists.
  split; [apply box_loop_report, Hqs|].
  intros j i d. rewrite printed_emit, Hc.
  rewrite (distances_report_in _ [] j i d). cbn [length app].
  rewrite spec_delta_default.
  split; [intros (H1 & _ & H2); tauto|intros (H1 & H2)].
  split; [exact H1|]. split; [lia|exact H2].
Qed.

Lemma default_distances_are_pixel_differences_witness :
  exists pts w',
    box_loop Demo.boxes2 (range (length Demo.boxes2)) [] Demo.world0
      = Ok pts w'
    /\ forall j i d,
        In ((j, i), d) (distances_of (printed Demo.world0 w'))
        <-> (j < i)%nat
            /\ exists qi qj,
                 nth_error Demo.ints2 i = Some qi
                 /\ nth_error Demo.ints2 j = Some qj
                 /\ d = (Int (fst (center qi) - fst (center qj)),
                         Int (snd (center qi) - snd (center qj))).
Proof.
  apply (default_distances_are_pixel_differences Demo.tracker_obj Demo.world0
           Demo.boxes2 Demo.ints2).
  - reflexivity.
  - repeat constructor.
Defined.






(** ** Boxes that are not numbers *)

Lemma trunc_float_error (f : float) (e : exn) :
  trunc_float f = inl e -> e = ValueError \/ e = OverflowError.
Proof.
  unfold trunc_float. destruct (Prim2SF f); intros H; inversion H; auto.
Qed.

Lemma py_int_error (v : num) (e : exn) :
  py_int v = inl e -> e = ValueError \/ e = OverflowError.
Proof. destruct v; cbn; [discriminate|apply trunc_float_error]. Qed.

Lemma first_int_error_kind (b : box) (e : exn) :
  first_int_error b = Some e -> e = ValueError \/ e = OverflowError.
Proof.
  destruct b as [[[bx by_] bw] bh]. unfold first_int_error.
  destruct (py_int bx) eqn:Ex; [intros H; inversion H; subst; eapply py_int_error; eassumption|].
  destruct (py_int by_) eqn:Ey; [intros H; inversion H; subst; eapply py_int_error; eassumption|].
  destruct (py_int bw) eqn:Ew; [intros H; inversion H; subst; eapply py_int_error; eassumption|].
  destruct (py_int bh) eqn:Eh; [intros H; inversion H; subst; eapply py_int_error; eassumption|].
  discriminate.
Qed.

Lemma int_box_or_error (b : box) :
  (exists q, int_box b q) \/ (exists e, first_int_error b = Some e).
Proof.
  destruct b as [[[bx by_] bw] bh]. unfold first_int_error, int_box.
  destruct (py_int bx) as [e|x]; [right; eauto|].
  destruct (py_int by_) as [e|y]; [right; eauto|].
  destruct (py_int bw) as [e|wd]; [right; eauto|].
  destruct (py_int bh) as [e|h]; [right; eauto|].
  left. exists (x, y, wd, h). repeat split.
Qed.

Lemma boxes_split (boxes : list box) :
  (exists qs, Forall2 int_box boxes qs)
  \/ (exists good bad post qs e,
        boxes = good ++ bad :: post /\ Forall2 int_box good qs
        /\ first_int_error bad = Some e).
Proof.
  induction boxes as [|b boxes IH]; [left; exists []; constructor|].
  destruct (int_box_or_error b) as [[q Hq]|[e He]].
  - destruct IH as [[qs Hqs]|(good & bad & post & qs & e & -> & Hqs & He)].
    + left. exists (q :: qs). constructor; assumption.
    + right. exists (b :: good), bad, post, (q :: qs), e.
      split; [reflexivity|]. split; [constructor; assumption|exact He].
  - right. exists [], b, boxes, [], e.
    split; [reflexivity|]. split; [constructor|exact He].
Qed.

Section BadBox.

Context {T : Type}.
Implicit Types (w : world T).

Lemma ints_of_error (b : box) (e : exn) w :
  first_int_error b = Some e -> ints_of b w = Raise e w.
Proof.
  destruct b as [[[bx by_] bw] bh]. unfold first_int_error, ints_of, bind, lift.
  destruct (py_int bx); [intros H; inversion H; reflexivity|].
  destruct (py_int by_); [intros H; inversion H; reflexivity|].
  destruct (py_int bw); [intros H; inversion H; reflexivity|].
  destruct (py_int bh); [intros H; inversion H; reflexivity|].
  discriminate.
Qed.

(** The loop over a stretch of good boxes, with more to do after it. *)
Lemma box_loop_prefix (c : calibration) (mid : list box) :
  forall (pre post : list box) (qs : list (Z * Z * Z * Z))
         (prev : list point) (idx' : list nat) w,
    Forall2 int_box mid qs ->
    calibrationRef w = c ->
    box_loop (pre ++ mid ++ post) (seq (length pre) (length mid) ++ idx') prev w
    = box_loop (pre ++ mid ++ post) idx' (prev ++ map (real_point c) qs)
        (emit (report_events (length pre) prev (map (real_point c) qs)) w).
Proof.
  induction mid as [|b mid IH]; intros pre post qs prev idx' w Hqs Hc.
  - inversion Hqs; subst; cbn. rewrite app_nil_r, emit_nil; reflexivity.
  - inversion Hqs as [|b' q mid' qs' Hq Hmid]; subst.
    cbn [length seq app box_loop map report_events].
    unfold index.
    rewrite nth_error_app2, Nat.sub_diag by lia. cbn [nth_error app].
    unfold bind at 1, ret at 1.
    rewrite (bind_ok _ _ _ _ _ (ints_of_ok b q w Hq)).
    destruct q as [[[x y] wd] h].
    unfold bind at 1, get at 1.
    unfold bind at 1. rewrite print_emit.
    fold (center (x, y, wd, h)).
    fold (real_point (calibrationRef w) (x, y, wd, h)).
    set (p := real_point (calibrationRef w) (x, y, wd, h)).
    unfold bind at 1.
    rewrite length_app; cbn [length]. rewrite Nat.add_sub.
    unfold range. rewrite distance_loop_emit
      by (intros j Hj; apply in_seq in Hj; lia).
    specialize (IH (pre ++ [b]) post qs' (prev ++ [p]) idx' (emit
      (map (fun j => Distance j (length pre)
              (py_sub (fst p) (fst (nth j prev p)))
              (py_sub (snd p) (snd (nth j prev p)))) (seq 0 (length prev)))
      (emit [Object (length pre) (fst p) (snd p)] w)) Hmid eq_refl).
    rewrite length_app in IH; cbn [length] in IH.
    rewrite Nat.add_1_r, <- app_assoc in IH. cbn [app] in IH.
    etransitivity; [exact IH|].
    rewrite !emit_emit, <- !app_assoc. reflexivity.
Qed.

(** The loop over boxes of which [bad] is the first that is not a number. *)
Lemma box_loop_bad (good : list box) (bad : box) (post : list box)
      (qs : list (Z * Z * Z * Z)) (e : exn) w :
  Forall2 int_box good qs ->
  first_int_error bad = Some e ->
  box_loop (good ++ bad :: post) (range (length (good ++ bad :: post))) [] w
  = Raise e (emit (report_events 0 []
                     (map (real_point (calibrationRef w)) qs)) w).
Proof.
  intros Hqs He. unfold range.
  rewrite length_app. cbn [length]. rewrite seq_app. cbn [Nat.add seq].
  etransitivity;
    [exact (box_loop_prefix (calibrationRef w) good [] (bad :: post) qs []
              (length good :: seq (S (length good)) (length post)) w
              Hqs eq_refl)|].
  cbn [app box_loop]. unfold index.
  rewrite nth_error_app2, Nat.sub_diag by lia. cbn [nth_error].
  unfold bind at 1, ret at 1.
  unfold bind at 1. rewrite (ints_of_error bad e _ He). reflexivity.
Qed.

Lemma box_loop_errors (boxes : list box) w e w' :
  box_loop boxes (range (length boxes)) [] w = Raise e w' ->
  e = ValueError \/ e = OverflowError.
Proof.
  destruct (boxes_split boxes)
    as [[qs Hqs]|(good & bad & post & qs & e' & -> & Hqs & He)].
  - rewrite (box_loop_report boxes qs w Hqs). discriminate.
  - rewrite (box_loop_bad good bad post qs e' w Hqs He).
    intros H; inversion H; subst. eapply first_int_error_kind; eassumption.
Qed.

End BadBox.

(** X10: when a box holds something int() refuses (a nan, an infinity), the
    loop has printed the lines of the boxes before it, prints nothing for
    it or for any later box, and raises ValueError or OverflowError. *)
Theorem bad_box_stops_report :
  forall (T : Type) (w : world T) (good : list box) (bad : box)
         (post : list box) (qs : list (Z * Z * Z * Z)) (e : exn),
    Forall2 int_box good qs ->
    first_int_error bad = Some e ->
    exists w',
      box_loop (good ++ bad :: post)
               (range (length (good ++ bad :: post))) [] w = Raise e w'
      /\ printed w w'
         = report_events 0 [] (map (real_point (calibrationRef w)) qs)
      /\ length (positions_of (printed w w')) = length good
      /\ (e = ValueError \/ e = OverflowError).
Proof.
  intros T w good bad post qs e Hqs He. eexists.
  split; [apply box_loop_bad; eassumption|].
  rewrite printed_emit. split; [reflexivity|]. split.
  - rewrite positions_report, length_map, length_combine, length_seq,
      length_map, Nat.min_id.
    symmetry; eapply Forall2_length; exact Hqs.
  - eapply first_int_error_kind; exact He.
Qed.

Lemma bad_box_stops_report_witness :
  exists w',
    box_loop (Demo.boxes2 ++ (Flt 1, Flt nan, Flt 2, Flt 3) :: Demo.boxes2)
      (range (length (Demo.boxes2
                      ++ (Flt 1, Flt nan, Flt 2, Flt 3) :: Demo.boxes2)))
      [] Demo.world0 = Raise ValueError w'
    /\ printed Demo.world0 w'
       = report_events 0 []
           (map (real_point (calibrationRef Demo.world0)) Demo.ints2)
    /\ length (positions_of (printed Demo.world0 w')) = length Demo.boxes2
    /\ (ValueError = ValueError \/ ValueError = OverflowError).
Proof.
  apply (bad_box_stops_report Demo.tracker_obj Demo.world0 Demo.boxes2
           (Flt 1, Flt nan, Flt 2, Flt 3) Demo.boxes2 Demo.ints2 ValueError).
  - repeat constructor.
  - reflexivity.
Defined.

(** ** Which exceptions can end the session *)

Section RaisesOnly.

Context {S : Type} (P : exn -> Prop).

Lemma raises_only_ret {A : Type} (a : A) : raises_only P (@ret S A a).
Proof. intros s; exact I. Qed.

Lemma raises_only_get : raises_only P (@get S).
Proof. intros s; exact I. Qed.

Lemma raises_only_modify (f : S -> S) : raises_only P (modify f).
Proof. intros s; exact I. Qed.

Lemma raises_only_raise {A : Type} (e : exn) : P e -> raises_only P (@raise S A e).
Proof. intros He s; exact He. Qed.

Lemma raises_only_lift {A : Type} (r : exn + A) :
  (forall e, r = inl e -> P e) -> raises_only P (@lift S A r).
Proof.
  intros H. destruct r as [e|a]; [apply raises_only_raise, H; reflexivity|].
  apply raises_only_ret.
Qed.

Lemma raises_only_bind {A B : Type} (c : M S A) (k : A -> M S B) :
  raises_only P c -> (forall a, raises_only P (k a)) -> raises_only P (bind c k).
Proof.
  intros Hc Hk s. unfold bind. specialize (Hc s).
  destruct (c s) as [a s'|e s']; [apply Hk|exact Hc].
Qed.

End RaisesOnly.

Lemma int_errors_not_internal (e : exn) :
  e = ValueError \/ e = OverflowError -> ~ internal_error e.
Proof. intros [->| ->] [H|H]; discriminate H. Qed.

Lemma ints_of_raises {T : Type} (b : box) :
  raises_only (fun e => ~ internal_error e) (@ints_of T b).
Proof.
  destruct b as [[[bx by_] bw] bh]. unfold ints_of.
  repeat (apply raises_only_bind;
          [apply raises_only_lift; intros e He;
           apply int_errors_not_internal; eapply py_int_error; exact He
          |intros ?]).
  apply raises_only_ret.
Qed.

Lemma input_float_raises {T : Type} :
  raises_only (fun e => ~ internal_error e) (@input_float T).
Proof.
  unfold input_float. apply raises_only_bind; [apply raises_only_get|intros w].
  destruct (stdin w) as [|l rest].
  - apply raises_only_raise. intros [H|H]; discriminate H.
  - apply raises_only_bind; [apply raises_only_modify|intros _].
    destruct l; [apply raises_only_ret|].
    apply raises_only_raise. intros [H|H]; discriminate H.
Qed.

Lemma float_truediv_raises {T : Type} (a : float) (b : num) :
  raises_only (fun e => ~ internal_error e) (@lift (world T) _ (float_truediv a b)).
Proof.
  apply raises_only_lift. unfold float_truediv.
  destruct (is_zero b); intros e H; inversion H. intros [H0|H0]; discriminate H0.
Qed.

Lemma calibrate_raises {T : Type} (calBox : box) :
  raises_only (fun e => ~ internal_error e) (@calibrate T calBox).
Proof.
  unfold calibrate.
  apply raises_only_bind; [apply ints_of_raises|intros [[[x y] wd] h]].
  apply raises_only_bind; [apply input_float_raises|intros x0].
  apply raises_only_bind; [apply input_float_raises|intros y0].
  apply raises_only_bind; [apply raises_only_modify|intros _].
  apply raises_only_bind; [apply raises_only_modify|intros _].
  apply raises_only_bind; [apply input_float_raises|intros x1].
  apply raises_only_bind; [apply input_float_raises|intros y1].
  apply raises_only_bind; [apply float_truediv_raises|intros rx].
  apply raises_only_bind; [apply float_truediv_raises|intros ry].
  apply raises_only_bind; [apply raises_only_modify|intros _].
  apply raises_only_modify.
Qed.

Section Safety.

Variable frame : Type.
Variable tracker_obj : Type.
Variable tracker_init : tracker_ctor -> frame -> box -> tracker_obj.
Variable tracker_update : tracker_obj -> frame -> tracker_obj * (bool * box).
Variable args_tracker : string.

Implicit Types (w : world tracker_obj) (t : tick frame) (f : frame).

Local Abbreviation iteration := (iteration tracker_init tracker_update args_tracker).
Local Abbreviation video_loop := (video_loop tracker_init tracker_update args_tracker).
Local Abbreviation serve_key := (serve_key tracker_init args_tracker).
Local Abbreviation add_region := (add_region tracker_init args_tracker).
Local Abbreviation frame_part := (frame_part tracker_update).
Local Abbreviation track_frame := (track_frame tracker_update).
Local Abbreviation MultiTracker_update := (MultiTracker_update tracker_update).

Lemma track_frame_errors f w e w' :
  fps w <> None ->
  track_frame f w = Raise e w' -> e = ValueError \/ e = OverflowError.
Proof.
  intros Hfps. unfold track_frame, bind at 1, get.
  destruct (MultiTracker_update (trackers w) f) as [ts [ok boxes]].
  unfold bind at 1, modify. unfold bind at 1. rewrite print_emit.
  unfold bind at 1.
  pose proof (box_loop_tracked _ boxes (range (length boxes)) []
                (emit [Blank] (set_trackers _ ts w))) as Htr.
  destruct (box_loop boxes (range (length boxes)) []
              (emit [Blank] (set_trackers _ ts w))) as [pts w2|e2 w2] eqn:E.
  - cbn in Htr. destruct Htr as (_ & _ & Hf).
    unfold fps_update, bind, get.
    destruct (fps w2) as [n|]; [discriminate|].
    exfalso. apply Hf; [exact Hfps|reflexivity].
  - intros H; inversion H; subst. eapply box_loop_errors; exact E.
Qed.

Lemma frame_part_errors f w e w' :
  session_inv w -> frame_part f w = Raise e w' -> ~ internal_error e.
Proof.
  intros [_ Hfps]. unfold frame_part, bind, get.
  destruct (initBox w) as [b|] eqn:Eb; [|discriminate].
  intros H. apply int_errors_not_internal.
  eapply track_frame_errors; [|exact H].
  apply Hfps. congruence.
Qed.

Lemma serve_key_errors f t w e w' :
  serve_key f t w = Raise e w' -> ~ internal_error e.
Proof.
  unfold serve_key.
  destruct (Z.land (waitKey t) 255 =? ord "s"%char).
  - unfold bind.
    destruct (dict_get OPENCV_OBJECT_TRACKERS args_tracker) as [e'|c] eqn:E.
    + rewrite (add_region_raise _ _ _ _ f _ w e' E).
      intros H; inversion H; subst.
      rewrite (dict_get_error _ _ _ E). intros [H0|H0]; discriminate H0.
    + rewrite (add_region_ok _ _ _ _ f _ w c E). discriminate.
  - destruct (Z.land (waitKey t) 255 =? ord "c"%char).
    + unfold bind. pose proof (calibrate_raises (selectROI t) w) as Hc.
      destruct (calibrate (selectROI t) w) as [u w1|e1 w1]; [discriminate|].
      intros H; inversion H; subst. exact Hc.
    + destruct (Z.land (waitKey t) 255 =? ord "q"%char); discriminate.
Qed.

Lemma iteration_errors t w e w' :
  session_inv w -> iteration t w = Raise e w' -> ~ internal_error e.
Proof.
  intros Hinv. unfold iteration.
  destruct (vs_read t) as [f|]; [|discriminate].
  unfold bind.
  destruct (frame_part f w) as [u w1|e1 w1] eqn:E.
  - apply serve_key_errors.
  - intros H; inversion H; subst. eapply frame_part_errors; eassumption.
Qed.

Lemma video_loop_errors (ticks : list (tick frame)) :
  forall w e w',
    session_inv w -> video_loop ticks w = Raise e w' -> ~ internal_error e.
Proof.
  induction ticks as [|t ticks IH]; intros w e w' Hinv; cbn [video_loop];
    [discriminate|].
  unfold bind.
  destruct (iteration t w) as [c w1|e1 w1] eqn:E.
  - destruct c; [|discriminate].
    apply IH. eapply iteration_inv; eassumption.
  - intros H; inversion H; subst. eapply iteration_errors; eassumption.
Qed.

(** X11: whatever the frames, the keys, the rectangles and the keyboard
    are, a session started from the initial variables never dies of an
    AttributeError or an IndexError: fps.update() is never called on None
    and no list is indexed out of range. *)
Theorem no_internal_error :
  forall (ticks : list (tick frame)) (keyboard : list typed) e w',
    video_loop ticks (initial_world keyboard) = Raise e w' ->
    e <> AttributeError /\ e <> IndexError.
Proof.
  intros ticks keyboard e w' H.
  assert (Hn : ~ internal_error e).
  { eapply video_loop_errors; [|exact H].
    split; cbn; [tauto|congruence]. }
  split; intros ->; apply Hn; [left|right]; reflexivity.
Qed.

(** The frame part writes the terminal, the FPS counter and the trackers,
    and nothing else: any relation those writes respect is kept. *)
Section FrameRule.

Variable R : world tracker_obj -> world tracker_obj -> Prop.
Hypothesis R_refl : forall w, R w w.
Hypothesis R_trans : forall a b c, R a b -> R b c -> R a c.
Hypothesis R_stdout : forall w l, R w (set_stdout _ l w).
Hypothesis R_fps : forall w n, R w (set_fps _ n w).
Hypothesis R_trackers : forall w ts, R w (set_trackers _ ts w).

Lemma print_keeps (e : event) : keeps R (@print tracker_obj e).
Proof. unfold print. apply keeps_modify. intros w; apply R_stdout. Qed.

Lemma index_keeps {A : Type} (l : list A) (i : nat) :
  keeps R (@index tracker_obj A l i).
Proof.
  unfold index. destruct (nth_error l i);
    [apply (keeps_ret R R_refl)|apply (keeps_raise R R_refl)].
Qed.

Lemma ints_of_keeps (b : box) : keeps R (@ints_of tracker_obj b).
Proof.
  destruct b as [[[bx by_] bw] bh]. unfold ints_of.
  repeat (apply (keeps_bind R R_trans); [apply (keeps_lift R R_refl)|intros ?]).
  apply (keeps_ret R R_refl).
Qed.

Lemma distance_loop_keeps i (realXY : point) (realPoints : list point) js :
  keeps R (@distance_loop tracker_obj i realXY realPoints js).
Proof.
  induction js as [|j js IH]; cbn [distance_loop]; [apply (keeps_ret R R_refl)|].
  apply (keeps_bind R R_trans); [apply index_keeps|intros pj].
  apply (keeps_bind R R_trans); [apply print_keeps|intros _].
  exact IH.
Qed.

Lemma box_loop_keeps (boxes : list box) (idx : list nat) :
  forall realPoints, keeps R (@box_loop tracker_obj boxes idx realPoints).
Proof.
  induction idx as [|i idx IH]; intros realPoints; cbn [box_loop];
    [apply (keeps_ret R R_refl)|].
  apply (keeps_bind R R_trans); [apply index_keeps|intros b].
  apply (keeps_bind R R_trans); [apply ints_of_keeps|].
  intros [[[x y] wd] h].
  apply (keeps_bind R R_trans); [apply (keeps_get R R_refl)|intros g].
  apply (keeps_bind R R_trans); [apply print_keeps|intros _].
  apply (keeps_bind R R_trans); [apply distance_loop_keeps|intros _].
  apply IH.
Qed.

Lemma fps_update_keeps : keeps R (@fps_update tracker_obj).
Proof.
  unfold fps_update.
  apply (keeps_bind R R_trans); [apply (keeps_get R R_refl)|intros g].
  destruct (fps g); [|apply (keeps_raise R R_refl)].
  apply keeps_modify. intros w; apply R_fps.
Qed.

Lemma track_frame_keeps f : keeps R (track_frame f).
Proof.
  intros w. unfold track_frame, bind at 1, get.
  destruct (MultiTracker_update (trackers w) f) as [ts [ok boxes]].
  unfold bind at 1, modify.
  apply (R_trans w (set_trackers _ ts w)); [apply R_trackers|].
  generalize (set_trackers _ ts w). change (keeps R
    (bind (print Blank) (fun _ =>
       bind (box_loop boxes (range (length boxes)) [])
            (fun _ => @fps_update tracker_obj)))).
  apply (keeps_bind R R_trans); [apply print_keeps|intros _].
  apply (keeps_bind R R_trans); [apply box_loop_keeps|intros _].
  apply fps_update_keeps.
Qed.

Lemma frame_part_keeps f : keeps R (frame_part f).
Proof.
  intros w. unfold frame_part, bind, get.
  destruct (initBox w); [apply track_frame_keeps|apply R_refl].
Qed.

End FrameRule.

Lemma untouched_refl w : untouched w w.
Proof. split; reflexivity. Qed.

Lemma untouched_trans (a b c : world tracker_obj) :
  untouched a b -> untouched b c -> untouched a c.
Proof. intros [H1 H2] [H3 H4]; split; congruence. Qed.

Lemma frame_part_untouched f : keeps untouched (frame_part f).
Proof.
  apply frame_part_keeps;
    [exact untouched_refl|exact untouched_trans| | | ];
    intros; split; reflexivity.
Qed.

Lemma serve_key_untouched f t w :
  Z.land (waitKey t) 255 <> ord "c"%char ->
  untouched w (outcome_world (serve_key f t w)).
Proof.
  intros Hc. unfold serve_key. apply Z.eqb_neq in Hc. rewrite Hc.
  destruct (Z.land (waitKey t) 255 =? ord "s"%char).
  - unfold bind.
    destruct (dict_get OPENCV_OBJECT_TRACKERS args_tracker) as [e|c] eqn:E.
    + rewrite (add_region_raise _ _ _ _ f _ w e E). split; reflexivity.
    + rewrite (add_region_ok _ _ _ _ f _ w c E). split; reflexivity.
  - destruct (Z.land (waitKey t) 255 =? ord "q"%char); split; reflexivity.
Qed.

Lemma iteration_untouched t w :
  Z.land (waitKey t) 255 <> ord "c"%char ->
  untouched w (outcome_world (iteration t w)).
Proof.
  intros Hc. unfold iteration.
  destruct (vs_read t) as [f|]; [|apply untouched_refl].
  unfold bind. pose proof (frame_part_untouched f w) as Hf.
  destruct (frame_part f w) as [u w1|e w1]; cbn in Hf |- *; [|exact Hf].
  eapply untouched_trans; [exact Hf|apply serve_key_untouched, Hc].
Qed.

(** X12: only the calibrate command changes the calibration or reads the
    keyboard: over any passes none of which has the key 'c', however the
    loop ends, calibrationRef and the pending keyboard input are what they
    were at the start. *)
Theorem calibration_persists_without_c :
  forall (ticks : list (tick frame)) w,
    Forall (fun t => Z.land (waitKey t) 255 <> ord "c"%char) ticks ->
    calibrationRef (outcome_world (video_loop ticks w)) = calibrationRef w
    /\ stdin (outcome_world (video_loop ticks w)) = stdin w.
Proof.
  intros ticks w Hall. change (untouched w (outcome_world (video_loop ticks w))).
  revert w. induction Hall as [|t ticks Ht Hall IH]; intros w;
    cbn [video_loop]; [apply untouched_refl|].
  unfold bind. pose proof (iteration_untouched t w Ht) as Hi.
  destruct (iteration t w) as [c w1|e w1]; cbn in Hi |- *; [|exact Hi].
  destruct c; [|exact Hi].
  eapply untouched_trans; [exact Hi|apply IH].
Qed.

(** X7: a pass with the key 'q' reads the key only after the frame has been
    handled: while tracking, with boxes that are numbers, the report of
    that frame is printed in full, and then the loop ends normally. *)
Theorem quit_pass_prints_report :
  forall w t f (ticks : list (tick frame)) (qs : list (Z * Z * Z * Z)),
    Tracking w ->
    session_inv w ->
    vs_read t = Some f ->
    Z.land (waitKey t) 255 = ord "q"%char ->
    Forall2 int_box (snd (snd (MultiTracker_update (trackers w) f))) qs ->
    exists w1,
      video_loop (t :: ticks) w = Ok tt w1
      /\ printed w w1
         = Blank :: report_events 0 []
                      (map (real_point (calibrationRef w)) qs)
      /\ length (positions_of (printed w w1)) = length (trackers w).
Proof.
  intros w t f ticks qs Htr [Hn Hfps] Hf Hk Hqs.
  unfold Tracking in Htr.
  destruct (fps w) as [n|] eqn:En; [|exfalso; apply (Hfps Htr); reflexivity].
  pose proof (MultiTracker_update_length _ _ tracker_update (trackers w) f)
    as [_ Hlen].
  destruct (MultiTracker_update (trackers w) f) as [ts [ok boxes]] eqn:Eup.
  cbn [fst snd] in Hqs, Hlen.
  pose proof (track_frame_report _ _ tracker_update f w ts ok boxes qs n
                Eup Hqs En) as Hrep.
  assert (Hfp : frame_part f w
                = Ok tt (mkWorld (calibrationRef w) ts (initBox w)
                           (Some (S n)) (stdin w)
                           (stdout w ++ Blank :: report_events 0 []
                              (map (real_point (calibrationRef w)) qs)))).
  { unfold frame_part, bind, get.
    destruct (initBox w); [exact Hrep|contradiction]. }
  assert (Hp : printed w (mkWorld (calibrationRef w) ts (initBox w)
                            (Some (S n)) (stdin w)
                            (stdout w ++ Blank :: report_events 0 []
                               (map (real_point (calibrationRef w)) qs)))
               = Blank :: report_events 0 []
                            (map (real_point (calibrationRef w)) qs))
    by (apply printed_app; reflexivity).
  eexists. split.
  - cbn [video_loop]. unfold bind.
    rewrite (iteration_frame _ _ _ _ _ t f w _ Hf Hfp), serve_key_q by exact Hk.
    reflexivity.
  - split; [exact Hp|]. rewrite Hp. cbn [positions_of].
    rewrite positions_report, length_map, length_combine, length_seq,
      length_map, Nat.min_id.
    rewrite <- (Forall2_length Hqs), Hlen. reflexivity.
Qed.

End Safety.

Lemma no_internal_error_witness :
  ValueError <> AttributeError /\ ValueError <> IndexError.
Proof.
  eapply (no_internal_error Demo.frame Demo.tracker_obj Demo.tracker_init
            Demo.tracker_update "medianflow"
            [Demo.tick_of (Demo.key "s") (Demo.rect 10 10 20 20); Demo.cal_tick]
            [Number 1; Number 2; NotANumber "abc"] ValueError).
  vm_compute. reflexivity.
Defined.

Lemma calibration_persists_without_c_witness :
  calibrationRef (outcome_world (Demo.run Demo.four_tracks
                                   (initial_world [Number 1; Number 2])))
    = calibrationRef (initial_world (tracker_obj := Demo.tracker_obj)
                        [Number 1; Number 2])
  /\ stdin (outcome_world (Demo.run Demo.four_tracks
                             (initial_world [Number 1; Number 2])))
     = stdin (initial_world (tracker_obj := Demo.tracker_obj)
                [Number 1; Number 2]).
Proof.
  apply (calibration_persists_without_c Demo.frame Demo.tracker_obj
           Demo.tracker_init Demo.tracker_update "medianflow"
           Demo.four_tracks (initial_world [Number 1; Number 2])).
  repeat constructor; intros H; discriminate H.
Defined.

Lemma quit_pass_prints_report_witness :
  exists w1,
    Demo.run [Demo.tick_of (Demo.key "q") (Demo.rect 0 0 0 0);
              Demo.tick_of Demo.no_key (Demo.rect 0 0 0 0)]
      (mkWorld default_calibration [Demo.rect 10 10 20 20]
               (Some (Demo.rect 10 10 20 20)) (Some O) [] []) = Ok tt w1
    /\ printed (mkWorld default_calibration [Demo.rect 10 10 20 20]
                  (Some (Demo.rect 10 10 20 20)) (Some O) [] []) w1
       = Blank :: report_events 0 []
                    (map (real_point default_calibration) [(10, 10, 20, 20)])
    /\ length (positions_of
                 (printed (mkWorld default_calibration [Demo.rect 10 10 20 20]
                             (Some (Demo.rect 10 10 20 20)) (Some O) [] []) w1))
       = 1%nat.
Proof.
  apply (quit_pass_prints_report Demo.frame Demo.tracker_obj Demo.tracker_init
           Demo.tracker_update "medianflow"
           (mkWorld default_calibration [Demo.rect 10 10 20 20]
              (Some (Demo.rect 10 10 20 20)) (Some O) [] [])
           (Demo.tick_of (Demo.key "q") (Demo.rect 0 0 0 0)) tt
           [Demo.tick_of Demo.no_key (Demo.rect 0 0 0 0)]
           [(10, 10, 20, 20)]).
  - unfold Tracking; cbn; discriminate.
  - split; cbn; [split; discriminate|discriminate].
  - reflexivity.
  - reflexivity.
  - repeat constructor.
Defined.

Section Counter.

Variable frame : Type.
Variable tracker_obj : Type.
Variable tracker_init : tracker_ctor -> frame -> box -> tracker_obj.
Variable tracker_update : tracker_obj -> frame -> tracker_obj * (bool * box).
Variable args_tracker : string.

Implicit Types (w : world tracker_obj) (t : tick frame) (f : frame).

Local Abbreviation iteration := (iteration tracker_init tracker_update args_tracker).
Local Abbreviation frame_part := (frame_part tracker_update).
Local Abbreviation MultiTracker_update := (MultiTracker_update tracker_update).

(** X13: the FPS counter counts the frames handled since it was last
    started: a tracking pass with no command adds one to it, replaces the
    trackers by the updated ones and leaves initBox alone. *)
Theorem fps_counts_tracked_frames :
  forall w t f (qs : list (Z * Z * Z * Z)) (n : nat),
    Tracking w ->
    fps w = Some n ->
    vs_read t = Some f ->
    Z.land (waitKey t) 255 <> ord "s"%char ->
    Z.land (waitKey t) 255 <> ord "c"%char ->
    Z.land (waitKey t) 255 <> ord "q"%char ->
    Forall2 int_box (snd (snd (MultiTracker_update (trackers w) f))) qs ->
    exists w',
      iteration t w = Ok Continue w'
      /\ fps w' = Some (S n)
      /\ trackers w' = fst (MultiTracker_update (trackers w) f)
      /\ initBox w' = initBox w.
Proof.
  intros w t f qs n Htr En Hf Hs Hc Hq Hqs.
  unfold Tracking in Htr.
  destruct (MultiTracker_update (trackers w) f) as [ts [ok boxes]] eqn:Eup.
  cbn [fst snd] in Hqs |- *.
  pose proof (track_frame_report _ _ tracker_update f w ts ok boxes qs n
                Eup Hqs En) as Hrep.
  assert (Hfp : frame_part f w
                = Ok tt (mkWorld (calibrationRef w) ts (initBox w)
                           (Some (S n)) (stdin w)
                           (stdout w ++ Blank :: report_events 0 []
                              (map (real_point (calibrationRef w)) qs)))).
  { unfold frame_part, bind, get.
    destruct (initBox w); [exact Hrep|contradiction]. }
  eexists. split.
  - rewrite (iteration_frame _ _ _ _ _ t f w _ Hf Hfp).
    apply serve_key_other; assumption.
  - cbn. repeat split.
Qed.

End Counter.

Lemma fps_counts_tracked_frames_witness :
  exists w',
    Demo.step (Demo.tick_of Demo.no_key (Demo.rect 0 0 0 0))
      (mkWorld default_calibration [Demo.rect 10 10 20 20]
               (Some (Demo.rect 10 10 20 20)) (Some 7%nat) [] [])
      = Ok Continue w'
    /\ fps w' = Some 8%nat
    /\ trackers w'
       = fst (MultiTracker_update Demo.tracker_update
                [Demo.rect 10 10 20 20] tt)
    /\ initBox w' = Some (Demo.rect 10 10 20 20).
Proof.
  apply (fps_counts_tracked_frames Demo.frame Demo.tracker_obj
           Demo.tracker_init Demo.tracker_update "medianflow"
           (mkWorld default_calibration [Demo.rect 10 10 20 20]
              (Some (Demo.rect 10 10 20 20)) (Some 7%nat) [] [])
           (Demo.tick_of Demo.no_key (Demo.rect 0 0 0 0)) tt
           [(10, 10, 20, 20)] 7%nat).
  - unfold Tracking; cbn; discriminate.
  - reflexivity.
  - reflexivity.
  - intros H; discriminate H.
  - intros H; discriminate H.
  - intros H; discriminate H.
  - repeat constructor.
Defined.
